(** * SpeechtoText: press-to-talk capture, recognition gateway and visualizer

    A shallow embedding of the TypeScript sources:
    - [services/VoiceApi.ts]         the stubbed recognition gateway,
    - [services/AudioService.ts]     the capture session (both revisions),
    - [services/AudioManager.ts]     the success-cue player,
    - [components/audio-visualizer.tsx]  pitch estimator, feature sampler,
                                      waveform buffers,
    - the home screen (both revisions): the interaction controller.

    JavaScript numbers that carry measurements (samples, metering levels,
    frequencies, random draws) are IEEE-754 binary64 values, modelled with
    the reference semantics [spec_float] at precision 53 and [emax] 1024.
    Millisecond clocks and durations are integers, modelled in [Z]. *)

From Stdlib Require Import ZArith List String Bool Lia Floats DecimalString.
From stdpp Require Import base option list gmap strings.

Open Scope string_scope.

(** ** JavaScript numbers *)

Module Js.

Abbreviation num := spec_float.

Definition fadd : num -> num -> num := SFadd prec emax.
Definition fsub : num -> num -> num := SFsub prec emax.
Definition fmul : num -> num -> num := SFmul prec emax.
Definition fdiv : num -> num -> num := SFdiv prec emax.
Definition Math_sqrt : num -> num := SFsqrt prec emax.
Definition Math_abs : num -> num := SFabs.

(** [x < y], [x <= y], [x > y]: false as soon as one side is NaN. *)
Definition flt : num -> num -> bool := SFltb.
Definition fle : num -> num -> bool := SFleb.
Definition fgt (x y : num) : bool := SFltb y x.

Definition NaN : num := S754_nan.
Definition zero : num := S754_zero false.

(** An integer read as a number. *)
Definition of_Z (z : Z) : num := binary_normalize prec emax z 0 false.

(** Decimal literals of the sources, as the nearest binary64 value. *)
Definition lit_0_01 : num := Eval vm_compute in Prim2SF 0x1.47ae147ae147bp-7%float.
Definition lit_0_1 : num := Eval vm_compute in Prim2SF 0x1.999999999999ap-4%float.
Definition lit_0_2 : num := Eval vm_compute in Prim2SF 0x1.999999999999ap-3%float.
Definition lit_0_5 : num := Eval vm_compute in Prim2SF 0.5%float.

(** [isFinite(x)] *)
Definition isFinite (x : num) : bool :=
  match x with
  | S754_zero _ | S754_finite _ _ _ => true
  | S754_infinity _ | S754_nan => false
  end.

(** Truthiness of a number: [0], [-0] and [NaN] are falsy. *)
Definition truthy (x : num) : bool :=
  match x with
  | S754_zero _ | S754_nan => false
  | S754_infinity _ | S754_finite _ _ _ => true
  end.

(** [Math.max(a, b)] and [Math.min(a, b)]: NaN if either side is NaN,
    and [+0] counts as larger than [-0]. *)
Definition Math_max (a b : num) : num :=
  match SFcompare a b with
  | None => NaN
  | Some Lt => b
  | Some Gt => a
  | Some Eq => match a with S754_zero true => b | _ => a end
  end.

Definition Math_min (a b : num) : num :=
  match SFcompare a b with
  | None => NaN
  | Some Lt => a
  | Some Gt => b
  | Some Eq => match a with S754_zero false => b | _ => a end
  end.

(** [Math.floor(x)] of a finite number, as an integer. Used only to
    index arrays: a non-finite index selects nothing, see [pick]. *)
Definition Math_floor (x : num) : option Z :=
  match x with
  | S754_zero _ => Some 0%Z
  | S754_finite s m e =>
      let v := cond_Zopp s (Zpos m) in
      Some (if (0 <=? e)%Z then v * 2 ^ e else v / 2 ^ (- e))%Z
  | S754_infinity _ | S754_nan => None
  end.

(** Reading [a[i]]: [None] is JavaScript's [undefined], returned for
    every index outside [0 .. a.length - 1]. *)
Definition get {A} (a : list A) (i : Z) : option A :=
  if (i <? 0)%Z then None else a !! Z.to_nat i.

(** [ToNumber] on the result of a read: [undefined] becomes [NaN]. *)
Definition toNumber (v : option num) : num := default NaN v.

(** [a.slice(start, end)] on a (typed) array: negative positions count
    from the end, positions are clamped to [0 .. a.length]. *)
Definition rel_index (len i : Z) : Z :=
  if (i <? 0)%Z then Z.max (len + i) 0 else Z.min i len.

Definition slice {A} (a : list A) (start end_ : Z) : list A :=
  let len := Z.of_nat (length a) in
  let k := rel_index len start in
  let final := rel_index len end_ in
  take (Z.to_nat (final - k)) (drop (Z.to_nat k) a).

End Js.

(** ** Thrown values and results of calls that may throw *)

Module Effects.

Inductive ErrCode := NETWORK | SERVER.

(** What the sources throw or receive in a [catch]: an [Error] object
    with its message, a [ProcessVoiceError] object, or a value that has
    no [message] field. *)
Inductive Thrown :=
| ErrorObj (message : string)
| VoiceError (code : ErrCode) (message : string)
| Opaque.

(** [e?.message]: [None] is [undefined]. *)
Definition message_of (e : Thrown) : option string :=
  match e with
  | ErrorObj m | VoiceError _ m => Some m
  | Opaque => None
  end.

Inductive Outcome (A : Type) :=
| Return (a : A)
| Throw (e : Thrown).
Arguments Return {A} a.
Arguments Throw {A} e.

(** Truthiness of a string or of a possibly-null string. *)
Definition truthy_str (s : string) : bool := negb (String.eqb s "").

End Effects.

(** ** services/VoiceApi.ts *)

Module VoiceApi.
Import Js Effects.

Inductive Scenario := success | clarify | networkError | serverError.

(** Values found in the free-form [context] record of a request. The
    callers store strings and [null]; booleans and [undefined] complete
    the truthiness test and the template literal. *)
Inductive JsVal :=
| JUndefined
| JNull
| JBool (b : bool)
| JStr (s : string).

Definition truthy_val (v : JsVal) : bool :=
  match v with
  | JUndefined | JNull => false
  | JBool b => b
  | JStr s => truthy_str s
  end.

(** The string a template literal inserts for a value. *)
Definition to_string (v : JsVal) : string :=
  match v with
  | JUndefined => "undefined"
  | JNull => "null"
  | JBool true => "true"
  | JBool false => "false"
  | JStr s => s
  end.

(** [clientTs] is kept as the instant it renders. *)
Record ProcessVoiceInput := {
  audioUri : string;
  mimeType : string;
  clientTs : Z;
  context : option (gmap string JsVal)
}.

Inductive ProcessVoiceResult :=
| ok (transcript : string)
| clarification (prompt : string).

Record VoiceApiImpl := {
  scenario : Scenario;
  delayMs : Z;
  completeNextAsSuccess : bool;
  liveActive : bool
}.

(** [new VoiceApiImpl(opts)]: both options may be absent. *)
Definition new (opt_delayMs : option Z) (opt_scenario : option Scenario) : VoiceApiImpl :=
  {| scenario := default success opt_scenario;
     delayMs := default 1000%Z opt_delayMs;
     completeNextAsSuccess := false;
     liveActive := false |}.

Definition set_completeNextAsSuccess (b : bool) (this : VoiceApiImpl) : VoiceApiImpl :=
  {| scenario := scenario this; delayMs := delayMs this;
     completeNextAsSuccess := b; liveActive := liveActive this |}.

Definition set_liveActive (b : bool) (this : VoiceApiImpl) : VoiceApiImpl :=
  {| scenario := scenario this; delayMs := delayMs this;
     completeNextAsSuccess := completeNextAsSuccess this; liveActive := b |}.

Definition setScenario (s : Scenario) (this : VoiceApiImpl) : VoiceApiImpl :=
  {| scenario := s; delayMs := delayMs this;
     completeNextAsSuccess := false; liveActive := liveActive this |}.

Definition isAvailable (this : VoiceApiImpl) : bool := true.

Definition startLiveRecognition (this : VoiceApiImpl) : VoiceApiImpl :=
  set_liveActive true this.


(** [ARRAY[Math.floor(r * ARRAY.length)]] for a draw [r] of
    [Math.random()]. Draws lie in [0, 1), so the index is in range; the
    empty string stands for the [undefined] of any other index. *)
Definition pick (array : list string) (r : num) : string :=
  match Math_floor (fmul r (of_Z (Z.of_nat (length array)))) with
  | Some i => default "" (get array i)
  | None => ""
  end.

Definition LIVE_TRANSCRIPTS : list string :=
  [ "Hey, remind me to call Alex tomorrow at 3 PM.";
    "Set an alarm for 7 AM tomorrow morning.";
    "What is the weather like this weekend?";
    "Add milk and eggs to my shopping list.";
    "Play some relaxing music from my favorites playlist.";
    "What time should I set it for?" ].

(** [stopLiveRecognition()], given the draw of its [Math.random()]. *)
Definition stopLiveRecognition (r : num) (this : VoiceApiImpl) : string * VoiceApiImpl :=
  (pick LIVE_TRANSCRIPTS r, set_liveActive false this).

Definition MOCK_TRANSCRIPTS : list string :=
  [ "Hey, remind me to call Alex tomorrow at 3 PM.";
    "Set an alarm for 7 AM tomorrow morning.";
    "What is the weather like this weekend?";
    "Add milk and eggs to my shopping list.";
    "Play some relaxing music from my favorites playlist.";
    "Send a message to John saying I’ll be late.";
    "Turn off the living room lights.";
    "Open my notes for today’s meeting." ].

Definition PROMPTS : list string :=
  [ "Can you repeat that?";
    "What exactly do you mean?";
    "Should I save that reminder?";
    "Do you want me to schedule it now?" ].

(** The three draws of [Math.random()] a call may consume, in order:
    the transcript index, the 10% coin, the prompt index. *)
Record Draws := { draw_transcript : num; draw_coin : num; draw_prompt : num }.

(** [input.context?.selectedTime] *)
Definition selectedTime (input : ProcessVoiceInput) : JsVal :=
  match context input with
  | None => JUndefined
  | Some ctx => default JUndefined (ctx !! "selectedTime")
  end.

(** [processVoice(input)]: the result or the thrown error, and the
    gateway afterwards. The simulated delay has no effect on either. *)
Definition processVoice (input : ProcessVoiceInput) (rnd : Draws) (this : VoiceApiImpl)
  : Outcome ProcessVoiceResult * VoiceApiImpl :=
  if completeNextAsSuccess this then
    (Return (ok "Okay — got it (follow-up)."), set_completeNextAsSuccess false this)
  else
    match scenario this with
    | clarify =>
        if truthy_val (selectedTime input) then
          (Return (ok ("Alarm set for " ++ to_string (selectedTime input) ++ ".")), this)
        else
          (Return (clarification "What time should I set it for?"),
           set_completeNextAsSuccess true this)
    | networkError =>
        (Throw (VoiceError NETWORK "Network error. Please try again."), this)
    | serverError =>
        (Throw (VoiceError SERVER "Something went wrong. Please try again."), this)
    | success =>
        if negb (truthy_str (audioUri input)) then (Return (ok ""), this)
        else
          let transcript := pick MOCK_TRANSCRIPTS (draw_transcript rnd) in
          if flt (draw_coin rnd) lit_0_1 then
            (Return (clarification (pick PROMPTS (draw_prompt rnd))),
             set_completeNextAsSuccess true this)
          else (Return (ok transcript), this)
    end.



End VoiceApi.

(** ** The platform: capabilities, stores and the effect monad *)

Module Platform.
Import Js Effects.

(** What [rec.getStatusAsync()] resolves to. [durationMillis] stands for
    [status.durationMillis ?? status.duration]; [None] is [undefined]. *)
Record RecordingStatus := {
  isRecording : bool;
  durationMillis : option Z;
  metering : option num
}.

(** An [Audio.Recording] handle. Each asynchronous method may answer
    differently at each call: the answer is a function of the number of
    capability calls made so far. [unloadAsync] is [None] when the
    handle does not expose it; [getURI] is [None] for [null]. *)
Record Recording := {
  getStatusAsync : nat -> Outcome RecordingStatus;
  stopAndUnloadAsync : nat -> Outcome unit;
  unloadAsync : option (nat -> Outcome unit);
  getURI : option string
}.

(** What [FileSystem.getInfoAsync] / [statAsync] resolve to. *)
Record FileInfo := { exists_ : bool; size : option N }.

(** The environment: clock, random source, and which capability calls
    reject. [sweep] is the effect on storage of the background
    [cleanupOldRecordings()] pass, which is started without being
    awaited and swallows every failure. *)
Record Env := {
  Date_now : nat -> Z;
  Math_random : nat -> num;
  probe_rejects : nat -> option Thrown;
  delete_rejects : nat -> option Thrown;
  replay_rejects : nat -> option Thrown;
  sweep : gmap string N -> gmap string N
}.

Inductive UiState := Idle | Listening | Processing | Clarification | Error | Cancelled.

(** [Math.round(duration / 1000)]: [IntNaN] when [duration] is [undefined]. *)
Inductive JsInt := IntNaN | Int (z : Z).

Module Item.
(** The [Recording] records of the history list. *)
Record t := {
  transcript : string;
  uri : string;
  timestamp : Z;
  durationSec : option JsInt
}.
End Item.

Module Home.
(** The state of the home screen: its [useState] cells and
    [liveModeRef]. *)
Record t := {
  state : UiState;
  recordings : list Item.t;
  errorMessage : option string;
  clarifyPrompt : option string;
  scenario : VoiceApi.Scenario;
  liveModeRef : bool
}.
End Home.

Module Player.
(** [AudioManager]: the loaded sounds (by identifier), the index of
    the next one, a load in flight (with the sounds it will leave),
    and the log of the sounds asked to replay. *)
Record t := {
  successSounds : list nat;
  currentIndex : nat;
  loadPromise : option (list nat);
  replays : list nat
}.
End Player.

Record World := {
  tick : nat;
  env : Env;
  files : gmap string N;
  voiceApi : VoiceApi.VoiceApiImpl;
  recording : option Recording;
  recordingStartTs : option Z;
  audioManager : Player.t;
  home : Home.t
}.

Definition set_tick (n : nat) (w : World) : World :=
  {| tick := n; env := env w; files := files w; voiceApi := voiceApi w;
     recording := recording w; recordingStartTs := recordingStartTs w;
     audioManager := audioManager w; home := home w |}.
Definition set_files (f : gmap string N) (w : World) : World :=
  {| tick := tick w; env := env w; files := f; voiceApi := voiceApi w;
     recording := recording w; recordingStartTs := recordingStartTs w;
     audioManager := audioManager w; home := home w |}.
Definition set_voiceApi (v : VoiceApi.VoiceApiImpl) (w : World) : World :=
  {| tick := tick w; env := env w; files := files w; voiceApi := v;
     recording := recording w; recordingStartTs := recordingStartTs w;
     audioManager := audioManager w; home := home w |}.
Definition set_recording (r : option Recording) (w : World) : World :=
  {| tick := tick w; env := env w; files := files w; voiceApi := voiceApi w;
     recording := r; recordingStartTs := recordingStartTs w;
     audioManager := audioManager w; home := home w |}.
Definition set_recordingStartTs (t : option Z) (w : World) : World :=
  {| tick := tick w; env := env w; files := files w; voiceApi := voiceApi w;
     recording := recording w; recordingStartTs := t;
     audioManager := audioManager w; home := home w |}.
Definition set_audioManager (a : Player.t) (w : World) : World :=
  {| tick := tick w; env := env w; files := files w; voiceApi := voiceApi w;
     recording := recording w; recordingStartTs := recordingStartTs w;
     audioManager := a; home := home w |}.
Definition set_home (h : Home.t) (w : World) : World :=
  {| tick := tick w; env := env w; files := files w; voiceApi := voiceApi w;
     recording := recording w; recordingStartTs := recordingStartTs w;
     audioManager := audioManager w; home := h |}.

(** *** The effect monad: a state transformer that may throw *)

Definition M (A : Type) : Type := World -> Outcome A * World.

Definition ret {A} (a : A) : M A := fun w => (Return a, w).
Definition throw {A} (e : Thrown) : M A := fun w => (Throw e, w).

Definition bind {A B} (m : M A) (k : A -> M B) : M B :=
  fun w =>
    match m w with
    | (Return a, w') => k a w'
    | (Throw e, w') => (Throw e, w')
    end.

(** [try { m } catch (e) { h(e) }], also [m.catch(h)] on a promise. *)
Definition try_catch {A} (m : M A) (h : Thrown -> M A) : M A :=
  fun w =>
    match m w with
    | (Return a, w') => (Return a, w')
    | (Throw e, w') => h e w'
    end.

(** [try { m } finally { f }] where [f] does not throw. *)
Definition try_finally {A} (m : M A) (f : World -> World) : M A :=
  fun w => let '(r, w') := m w in (r, f w').

Definition modify (f : World -> World) : M unit := fun w => (Return tt, f w).
Definition read {A} (f : World -> A) : M A := fun w => (Return (f w), w).

(** A capability call: consult the answer for the current tick, and
    advance the tick. *)
Definition call {A} (answer : Env -> nat -> Outcome A) : M A :=
  fun w => (answer (env w) (tick w), set_tick (S (tick w)) w).

Definition Date_now_call : M Z := call (fun e t => Return (Date_now e t)).
Definition Math_random_call : M num := call (fun e t => Return (Math_random e t)).

(** *** Artifact storage *)

Definition info_of (fs : gmap string N) (uri : string) : FileInfo :=
  match fs !! uri with
  | Some sz => {| exists_ := true; size := Some sz |}
  | None => {| exists_ := false; size := None |}
  end.

(** [FileSystem.getInfoAsync(uri)] and [FileSystem.statAsync(uri)]. *)
Definition probe (uri : string) : M FileInfo :=
  fun w =>
    (match probe_rejects (env w) (tick w) with
     | Some e => Throw e
     | None => Return (info_of (files w) uri)
     end, set_tick (S (tick w)) w).

(** [FileSystem.deleteAsync(uri, { idempotent: true })] *)
Definition deleteAsync (uri : string) : M unit :=
  fun w =>
    match delete_rejects (env w) (tick w) with
    | Some e => (Throw e, set_tick (S (tick w)) w)
    | None => (Return tt, set_files (delete uri (files w)) (set_tick (S (tick w)) w))
    end.

End Platform.

Declare Scope js_scope.
Delimit Scope js_scope with js.
Notation "'let*' x := m 'in' k" := (Platform.bind m (fun x => k))
  (at level 10, x name, m at level 100, k at level 200) : js_scope.
Notation "m ;; k" := (Platform.bind m (fun _ => k))
  (at level 100, k at level 200, right associativity) : js_scope.

(** ** services/AudioService.ts *)

Module AudioService.
Import Js Effects Platform.
Local Open Scope js_scope.

Definition RECORDING_MIME : string := "audio/m4a".

Record StopResult := { uri : string; mimeType : string; duration : option Z }.

(** [safeStopAndUnload(rec)]: every failure is swallowed. *)
Definition safeStopAndUnload (rec : option Recording) : M unit :=
  match rec with
  | None => ret tt
  | Some rec =>
      try_catch
        (let* status :=
           try_catch
             (let* s := call (fun _ => getStatusAsync rec) in ret (Some s))
             (fun _ => ret None) in
         match status with
         | Some {| isRecording := true |} => call (fun _ => stopAndUnloadAsync rec)
         | _ =>
             match unloadAsync rec with
             | Some unload => call (fun _ => unload)
             | None => ret tt
             end
         end)
        (fun _ => ret tt)
  end.

(** [stopRecording()] of services/AudioService.ts. *)
Definition stopRecording : M StopResult :=
  let* this_recording := read recording in
  match this_recording with
  | None => throw (ErrorObj "No active recording")
  | Some rec =>
      try_catch
        (let* status :=
           try_catch
             (let* s := call (fun _ => getStatusAsync rec) in ret (durationMillis s))
             (fun _ => ret None) in
         let duration := status in
         try_catch
           (call (fun _ => stopAndUnloadAsync rec))
           (fun _ => safeStopAndUnload (Some rec)) ;;
         let uri := getURI rec in
         modify (set_recording None) ;;
         match uri with
         | Some uri =>
             if truthy_str uri then
               let* info := probe uri in
               if negb (exists_ info) || (default 0%N (size info) =? 0)%N
               then throw (ErrorObj "Recorded file is missing or empty")
               else ret {| uri := uri; mimeType := RECORDING_MIME; duration := duration |}
             else throw (ErrorObj "Recording file missing")
         | None => throw (ErrorObj "Recording file missing")
         end)
        (fun e => modify (set_recording None) ;; throw e)
  end.

(** [cancelRecording()] of services/AudioService.ts. *)
Definition cancelRecording : M unit :=
  let* this_recording := read recording in
  match this_recording with
  | None => ret tt
  | Some rec =>
      try_catch (safeStopAndUnload (Some rec)) (fun _ => ret tt) ;;
      try_catch
        (match getURI rec with
         | Some uri =>
             if truthy_str uri then
               let* info := probe uri in
               if exists_ info then deleteAsync uri else ret tt
             else ret tt
         | None => ret tt
         end)
        (fun _ => ret tt) ;;
      modify (set_recording None)
  end.

(** [cleanupOldRecordings()]: see [sweep]. *)
Definition cleanupOldRecordings : M unit :=
  modify (fun w => set_files (sweep (env w) (files w)) w).

Record Status := { metering : num; frequency : num }.

(** [metering ? (metering + 160) / 160 : 0] *)
Definition normalized (metering : num) : num :=
  if truthy metering then fdiv (fadd metering (of_Z 160)) (of_Z 160) else zero.

(** [getRecordingStatus()]: [None] is [null]. *)
Definition getRecordingStatus : M (option Status) :=
  let* this_recording := read recording in
  match this_recording with
  | None => ret None
  | Some rec =>
      try_catch
        (let* status := call (fun _ => getStatusAsync rec) in
         let metering := default (of_Z (-160)) (Platform.metering status) in
         ret (Some {| metering := metering;
                      frequency := fmul (normalized metering) (of_Z 2000) |}))
        (fun _ => ret None)
  end.

End AudioService.


(** ** The later revision of AudioService.ts (with [recordingStartTs]) *)

Module AudioService2.
Import Js Effects Platform.
Import AudioService(StopResult, Build_StopResult, RECORDING_MIME, safeStopAndUnload).
Local Open Scope js_scope.

(** [stopRecording()] *)
Definition stopRecording : M StopResult :=
  let* this_recording := read recording in
  match this_recording with
  | None => throw (ErrorObj "No active recording")
  | Some rec =>
      modify (set_recording None) ;;
      try_finally
        (try_catch
           (try_catch
              (call (fun _ => stopAndUnloadAsync rec))
              (fun _ => safeStopAndUnload (Some rec)) ;;
            match getURI rec with
            | Some uri =>
                if truthy_str uri then
                  let* info :=
                    try_catch (let* i := probe uri in ret (Some i)) (fun _ => ret None) in
                  if match info with
                     | Some i =>
                         negb (exists_ i) ||
                         match size i with Some n => (n <=? 0)%N | None => false end
                     | None => false
                     end
                  then throw (ErrorObj "Recorded file is missing or empty")
                  else
                    let* reported :=
                      try_catch
                        (let* s := call (fun _ => getStatusAsync rec) in
                         ret (durationMillis s))
                        (fun _ => ret None) in
                    let* startTs := read recordingStartTs in
                    let* duration :=
                      match reported with
                      | Some d => ret d
                      | None =>
                          match startTs with
                          | Some ts =>
                              if (ts =? 0)%Z then ret 1000%Z
                              else let* now := Date_now_call in ret (now - ts)%Z
                          | None => ret 1000%Z
                          end
                      end in
                    ret {| AudioService.uri := uri;
                           AudioService.mimeType := RECORDING_MIME;
                           AudioService.duration := Some (Z.max 0 duration) |}
                else throw (ErrorObj "Recording file missing")
            | None => throw (ErrorObj "Recording file missing")
            end)
           (fun e =>
              try_catch (safeStopAndUnload (Some rec)) (fun _ => ret tt) ;;
              throw e))
        (set_recordingStartTs None)
  end.

(** [cancelRecording()] *)
Definition cancelRecording : M unit :=
  let* this_recording := read recording in
  match this_recording with
  | None => ret tt
  | Some rec =>
      modify (set_recording None) ;;
      modify (set_recordingStartTs None) ;;
      try_catch (safeStopAndUnload (Some rec)) (fun _ => ret tt) ;;
      try_catch
        (match getURI rec with
         | Some uri =>
             if truthy_str uri then
               let* info :=
                 try_catch (let* i := probe uri in ret (Some i)) (fun _ => ret None) in
               match info with
               | Some {| exists_ := true |} => deleteAsync uri
               | _ => ret tt
               end
             else ret tt
         | None => ret tt
         end)
        (fun _ => ret tt)
  end.

End AudioService2.

(** ** services/AudioManager.ts *)

Module AudioManager.
Import Effects Platform.
Local Open Scope js_scope.

Definition set_sounds (l : list nat) (a : Player.t) : Player.t :=
  {| Player.successSounds := l; Player.currentIndex := Player.currentIndex a;
     Player.loadPromise := None; Player.replays := Player.replays a |}.

Definition log_replay (sound : nat) (a : Player.t) : Player.t :=
  {| Player.successSounds := Player.successSounds a;
     Player.currentIndex := Player.currentIndex a;
     Player.loadPromise := Player.loadPromise a;
     Player.replays := Player.replays a ++ [sound] |}.

Definition advance (a : Player.t) : Player.t :=
  {| Player.successSounds := Player.successSounds a;
     Player.currentIndex :=
       (Player.currentIndex a + 1) `mod` length (Player.successSounds a);
     Player.loadPromise := Player.loadPromise a;
     Player.replays := Player.replays a |}.

(** [sound.replayAsync()] *)
Definition replayAsync (sound : nat) : M unit :=
  modify (fun w => set_audioManager (log_replay sound (audioManager w)) w) ;;
  call (fun e t => match replay_rejects e t with Some err => Throw err | None => Return tt end).

(** [playNextSuccessSound()]: never throws. *)
Definition playNextSuccessSound : M unit :=
  try_catch
    (let* pending := read (fun w => Player.loadPromise (audioManager w)) in
     match pending with
     | Some loaded => modify (fun w => set_audioManager (set_sounds loaded (audioManager w)) w)
     | None => ret tt
     end ;;
     let* a := read audioManager in
     match Player.successSounds a !! Player.currentIndex a with
     | Some sound =>
         replayAsync sound ;;
         modify (fun w => set_audioManager (advance (audioManager w)) w)
     | None => ret tt
     end)
    (fun _ => ret tt).

End AudioManager.

(** ** components/audio-visualizer.tsx *)

Module Visualizer.
Import Js.

Definition WAVE_POINTS : nat := 60.

(** [for (let i = i0; cond(i); i++) { if (hit(i)) { r = ...; break; } }]:
    the index at which the loop breaks, if it does. The loops below run
    while [i < SIZE / 2], which on integers is [2 * i < SIZE]. *)
Fixpoint first_hit (cond hit : Z -> bool) (i : Z) (fuel : nat) : option Z :=
  match fuel with
  | O => None
  | S fuel' =>
      if cond i then
        if hit i then Some i else first_hit cond hit (i + 1)%Z fuel'
      else None
  end.

(** [for (i = 0; i < SIZE; i++) { const val = buffer[i]; rms += val * val; }] *)
Definition sum_squares (buffer : list num) : num :=
  fold_left (fun acc val => fadd acc (fmul val val)) buffer zero.

(** [Math.sqrt(rms / SIZE)] *)
Definition rms_of (buffer : list num) : num :=
  Math_sqrt (fdiv (sum_squares buffer) (of_Z (Z.of_nat (length buffer)))).

(** The inner loop of the autocorrelation, for one lag [i]:
    [for (j = 0; j < newSize - i; j++) c[i] = c[i] + buffer[j] * buffer[j + i]] *)
Definition acf (buffer : list num) (newSize i : Z) : num :=
  fold_left
    (fun acc j =>
       fadd acc (fmul (toNumber (get buffer j)) (toNumber (get buffer (j + i)%Z))))
    (seqZ 0 (newSize - i)) zero.

Definition autocorrelation (buffer : list num) : list num :=
  let newSize := Z.of_nat (length buffer) in
  (fun i => acf buffer newSize i) <$> seqZ 0 newSize.

(** [let d = 0; while (c[d] > c[d + 1]) d++;] with an iteration budget:
    [None] when the budget is used up before the loop exits. *)
Fixpoint descend (c : list num) (d : Z) (fuel : nat) : option Z :=
  match fuel with
  | O => None
  | S fuel' =>
      if fgt (toNumber (get c d)) (toNumber (get c (d + 1)%Z))
      then descend c (d + 1)%Z fuel'
      else Some d
  end.

(** [for (i = d; i < newSize; i++) if (c[i] > maxval) { maxval = c[i]; maxpos = i; }]
    started from [maxval = -1], [maxpos = -1]. *)
Definition peak (c : list num) (d newSize : Z) : num * Z :=
  fold_left
    (fun '(maxval, maxpos) i =>
       if fgt (toNumber (get c i)) maxval
       then (toNumber (get c i), i) else (maxval, maxpos))
    (seqZ d (newSize - d)) (of_Z (-1), (-1)%Z).

(** The parabolic refinement of the lag:
    [a = (x1 + x3 - 2 * x2) / 2; b = (x3 - x1) / 2; if (a) T0 = T0 - b / (2 * a)] *)
Definition coeff_a (c : list num) (T0 : Z) : num :=
  let x1 := toNumber (get c (T0 - 1)%Z) in
  let x2 := toNumber (get c T0) in
  let x3 := toNumber (get c (T0 + 1)%Z) in
  fdiv (fsub (fadd x1 x3) (fmul (of_Z 2) x2)) (of_Z 2).

Definition coeff_b (c : list num) (T0 : Z) : num :=
  let x1 := toNumber (get c (T0 - 1)%Z) in
  let x3 := toNumber (get c (T0 + 1)%Z) in
  fdiv (fsub x3 x1) (of_Z 2).

Definition refine (c : list num) (T0 : Z) : num :=
  let a := coeff_a c T0 in
  let b := coeff_b c T0 in
  if truthy a then fsub (of_Z T0) (fdiv b (fmul (of_Z 2) a)) else of_Z T0.

(** The trimmed window [buffer.slice(r1, r2)]. *)
Definition trim (buffer : list num) : list num :=
  let SIZE := Z.of_nat (length buffer) in
  let thres := lit_0_2 in
  let in_half i := (2 * i <? SIZE)%Z in
  let r1 :=
    default 0%Z
      (first_hit in_half
         (fun i => flt (Math_abs (toNumber (get buffer i))) thres)
         0 (length buffer)) in
  let r2 :=
    default (SIZE - 1)%Z
      ((fun i => SIZE - i)%Z <$>
       first_hit in_half
         (fun i => flt (Math_abs (toNumber (get buffer (SIZE - i)%Z))) thres)
         1 (length buffer)) in
  slice buffer r1 r2.

(** [autoCorrelate(buffer, sampleRate)]. The outer [option] is [None]
    only if the [while] loop has not exited within [fuel] iterations;
    the inner [None] is the [null] result. *)
Definition autoCorrelate_fuel (fuel : nat) (buffer : list num) (sampleRate : num)
  : option (option num) :=
  if flt (rms_of buffer) lit_0_01 then Some None
  else
    let buffer := trim buffer in
    let newSize := Z.of_nat (length buffer) in
    let c := autocorrelation buffer in
    match descend c 0 fuel with
    | None => None
    | Some d =>
        let '(maxval, maxpos) := peak c d newSize in
        if (maxpos =? 0)%Z then Some None
        else
          let T0 := refine c maxpos in
          let freq := fdiv sampleRate T0 in
          if negb (isFinite freq) || fle freq zero || fgt freq (of_Z 5000)
          then Some None
          else Some (Some freq)
    end.

(** The iteration budget used from here on: one more than the length
    of the window, see [descend_halts]. *)
Definition autoCorrelate (buffer : list num) (sampleRate : num) : option (option num) :=
  autoCorrelate_fuel (S (length buffer)) buffer sampleRate.

(** *** The per-tick sampler [updateWaveform] *)

(** The refs of the component. *)
Record Refs := {
  startTimeRef : option Z;
  meterBuffer : list num;
  frequencyBuffer : list num
}.

Definition initial : Refs :=
  {| startTimeRef := None; meterBuffer := []; frequencyBuffer := [] |}.

(** Where the tick runs: on the web with the analyser's current window
    and the context's sample rate ([None] while the analyser, the data
    array or the context is missing), or natively. *)
Inductive PlatformOS :=
| web (analyser : option (list num * num))
| native.

(** [autoCorrelate(dataArray, sampleRate) || 0] *)
Definition web_frequency (dataArray : list num) (sampleRate : num) : num :=
  match autoCorrelate dataArray sampleRate with
  | Some (Some freq) => if truthy freq then freq else zero
  | _ => zero
  end.

(** [Math.min(1, rms * 15)] *)
Definition web_meter (dataArray : list num) : num :=
  Math_min (of_Z 1) (fmul (rms_of dataArray) (of_Z 15)).

(** [Math.max(0, (metering + 160) / 160)] *)
Definition native_meter (metering : num) : num :=
  Math_max zero (fdiv (fadd metering (of_Z 160)) (of_Z 160)).


(** The amplitude and frequency of a tick on the native path, from the
    result of [audioService.getRecordingStatus()]. *)
Definition native_sample (status : option AudioService.Status) : num * num :=
  match status with
  | Some st => (native_meter (AudioService.metering st), AudioService.frequency st)
  | None => (zero, zero)
  end.

(** [push] on both buffers, then [shift] on both when the meter buffer
    is longer than [WAVE_POINTS]. *)
Definition push_sample (normalizedMeter frequency : num) (r : Refs) : Refs :=
  let meters := (meterBuffer r ++ [normalizedMeter])%list in
  let freqs := (frequencyBuffer r ++ [frequency])%list in
  if (WAVE_POINTS <? length meters)%nat
  then {| startTimeRef := startTimeRef r;
          meterBuffer := tail meters; frequencyBuffer := tail freqs |}
  else {| startTimeRef := startTimeRef r;
          meterBuffer := meters; frequencyBuffer := freqs |}.

(** The target height of wave point [i]:
    [meter * (0.5 + Math.min(1, freq / 1000) * 0.5)]. *)
Definition height (r : Refs) (i : Z) : num :=
  let or_zero v := match v with Some x => if truthy x then x else zero | None => zero end in
  let meter := or_zero (get (meterBuffer r) i) in
  let freq := or_zero (get (frequencyBuffer r) i) in
  let freqFactor := Math_min (of_Z 1) (fdiv freq (of_Z 1000)) in
  fmul meter (fadd lit_0_5 (fmul freqFactor lit_0_5)).

Import Effects Platform.
Local Open Scope js_scope.

(** One run of [updateWaveform] on the refs. *)
Definition updateWaveform (isRecording : bool) (os : PlatformOS) (r : Refs) : M Refs :=
  if negb isRecording then ret initial
  else
    let* r :=
      if match startTimeRef r with Some ts => (ts =? 0)%Z | None => true end
      then
        let* now := Date_now_call in
        ret {| startTimeRef := Some now; meterBuffer := meterBuffer r;
               frequencyBuffer := frequencyBuffer r |}
      else ret r in
    Date_now_call ;;
    let* sample :=
      match os with
      | web (Some (dataArray, sampleRate)) =>
          ret (web_meter dataArray, web_frequency dataArray sampleRate)
      | web None => ret (zero, zero)
      | native =>
          let* status := AudioService.getRecordingStatus in
          ret (native_sample status)
      end in
    ret (push_sample (fst sample) (snd sample) r).

(** The animation-frame loop while [isRecording] stays true: each run
    of [updateWaveform] schedules the next one. *)
Fixpoint run_ticks (ticks : list PlatformOS) (r : Refs) : M Refs :=
  match ticks with
  | [] => ret r
  | os :: rest => let* r' := updateWaveform true os r in run_ticks rest r'
  end.

(** The pushes of a sequence of (amplitude, frequency) samples. *)
Definition push_all (samples : list (num * num)) (r : Refs) : Refs :=
  fold_left (fun r s => push_sample (fst s) (snd s) r) samples r.

Definition same_buffers (r1 r2 : Refs) : Prop :=
  meterBuffer r1 = meterBuffer r2 /\ frequencyBuffer r1 = frequencyBuffer r2.

End Visualizer.



(** ** The home screen: the interaction controller *)

Module Controller.
Import Js Effects Platform.
Import AudioService(StopResult).
Local Open Scope js_scope.

(** The capture service a screen is linked with: either revision of
    AudioService.ts. *)
Inductive Revision := rev1 | rev2.

Definition stopRecording (v : Revision) : M StopResult :=
  match v with
  | rev1 => AudioService.stopRecording
  | rev2 => AudioService2.stopRecording
  end.

Definition cancelRecording (v : Revision) : M unit :=
  match v with
  | rev1 => AudioService.cancelRecording
  | rev2 => AudioService2.cancelRecording
  end.

(** *** State setters *)

Definition with_home (f : Home.t -> Home.t) : M unit :=
  modify (fun w => set_home (f (home w)) w).

Definition setState (s : UiState) : M unit :=
  with_home (fun h =>
    {| Home.state := s; Home.recordings := Home.recordings h;
       Home.errorMessage := Home.errorMessage h;
       Home.clarifyPrompt := Home.clarifyPrompt h;
       Home.scenario := Home.scenario h; Home.liveModeRef := Home.liveModeRef h |}).

(** [setRecordings(prev => [item, ...prev])] *)
Definition addRecording (item : Item.t) : M unit :=
  with_home (fun h =>
    {| Home.state := Home.state h; Home.recordings := item :: Home.recordings h;
       Home.errorMessage := Home.errorMessage h;
       Home.clarifyPrompt := Home.clarifyPrompt h;
       Home.scenario := Home.scenario h; Home.liveModeRef := Home.liveModeRef h |}).

Definition setErrorMessage (m : option string) : M unit :=
  with_home (fun h =>
    {| Home.state := Home.state h; Home.recordings := Home.recordings h;
       Home.errorMessage := m;
       Home.clarifyPrompt := Home.clarifyPrompt h;
       Home.scenario := Home.scenario h; Home.liveModeRef := Home.liveModeRef h |}).

Definition setClarifyPrompt (p : option string) : M unit :=
  with_home (fun h =>
    {| Home.state := Home.state h; Home.recordings := Home.recordings h;
       Home.errorMessage := Home.errorMessage h;
       Home.clarifyPrompt := p;
       Home.scenario := Home.scenario h; Home.liveModeRef := Home.liveModeRef h |}).

Definition set_liveModeRef (b : bool) : M unit :=
  with_home (fun h =>
    {| Home.state := Home.state h; Home.recordings := Home.recordings h;
       Home.errorMessage := Home.errorMessage h;
       Home.clarifyPrompt := Home.clarifyPrompt h;
       Home.scenario := Home.scenario h; Home.liveModeRef := b |}).

(** *** Calls into the gateway and the cue player *)

(** [voiceApi.stopLiveRecognition()], drawing from the random source. *)
Definition voiceApi_stopLiveRecognition : M string :=
  let* r := Math_random_call in
  fun w =>
    let '(transcript, v) := VoiceApi.stopLiveRecognition r (voiceApi w) in
    (Return transcript, set_voiceApi v w).

(** [voiceApi.processVoice(input)], drawing from the random source. *)
Definition voiceApi_processVoice (input : VoiceApi.ProcessVoiceInput)
  : M VoiceApi.ProcessVoiceResult :=
  let* r1 := Math_random_call in
  let* r2 := Math_random_call in
  let* r3 := Math_random_call in
  fun w =>
    let '(res, v) :=
      VoiceApi.processVoice input
        {| VoiceApi.draw_transcript := r1; VoiceApi.draw_coin := r2;
           VoiceApi.draw_prompt := r3 |} (voiceApi w) in
    (res, set_voiceApi v w).

(** [audioManager.playNextSuccessSound().catch(console.error)] *)
Definition play_cue : M unit :=
  try_catch AudioManager.playNextSuccessSound (fun _ => ret tt).

(** [Math.round(duration / 1000)] on whole milliseconds: halves round up. *)
Definition Math_round_seconds (duration : option Z) : JsInt :=
  match duration with
  | Some d => Int ((d + 500) / 1000)%Z
  | None => IntNaN
  end.

(** [x?.message ?? fallback] and [x.message || fallback] *)
Definition message_or (e : Thrown) (fallback : string) : string :=
  default fallback (message_of e).
Definition truthy_message_or (e : Thrown) (fallback : string) : string :=
  match message_of e with
  | Some m => if truthy_str m then m else fallback
  | None => fallback
  end.

Definition is_success (s : VoiceApi.Scenario) : bool :=
  match s with VoiceApi.success => true | _ => false end.

(** [transcript || '(no speech detected)'] *)
Definition live_item (transcript : string) (now : Z) : Item.t :=
  {| Item.transcript :=
       if truthy_str transcript then transcript else "(no speech detected)";
     Item.uri := ""; Item.timestamp := now; Item.durationSec := None |}.

(** *** The screen with the [Cancelled] phase

    A handler closes over the [state], [clarifyPrompt] and [scenario]
    of the render it was created in: [h0] below is that render, read
    when the handler starts. [liveModeRef] is a ref and is read live. *)
Module ScreenA.

Definition processRecording (h0 : Home.t) (uri mimeType : string) (durationMs : option Z)
  : M VoiceApi.ProcessVoiceResult :=
  let* clientTs := Date_now_call in
  let input :=
    {| VoiceApi.audioUri := uri; VoiceApi.mimeType := mimeType;
       VoiceApi.clientTs := clientTs;
       VoiceApi.context :=
         match Home.state h0, Home.clarifyPrompt h0 with
         | Clarification, Some p =>
             if truthy_str p
             then Some {[ "previousPrompt" := VoiceApi.JStr p ]}
             else None
         | _, _ => None
         end |} in
  let* res := voiceApi_processVoice input in
  match res with
  | VoiceApi.clarification prompt =>
      setClarifyPrompt (Some prompt) ;; setState Clarification
  | VoiceApi.ok _ => ret tt
  end ;;
  ret res.

Definition handleStop (v : Revision) : M unit :=
  let* h0 := read home in
  try_catch
    (let* live := read (fun w => Home.liveModeRef (home w)) in
     if live then
       play_cue ;;
       setState Processing ;;
       let* transcript := voiceApi_stopLiveRecognition in
       let* now := Date_now_call in
       addRecording (live_item transcript now) ;;
       setClarifyPrompt None ;;
       setState Idle ;;
       set_liveModeRef false
     else
       setState Processing ;;
       let* r := stopRecording v in
       if negb (truthy_str (AudioService.uri r)) then
         throw (ErrorObj "Recording failed - no audio file created")
       else
         try_catch
           (let* res :=
              processRecording h0 (AudioService.uri r) (AudioService.mimeType r)
                (AudioService.duration r) in
            match res with
            | VoiceApi.ok transcript =>
                let durationSec := Math_round_seconds (AudioService.duration r) in
                let* now := Date_now_call in
                addRecording
                  {| Item.transcript := transcript; Item.uri := AudioService.uri r;
                     Item.timestamp := now; Item.durationSec := Some durationSec |} ;;
                setClarifyPrompt None ;;
                (if is_success (Home.scenario h0) then play_cue else ret tt) ;;
                setState Idle
            | VoiceApi.clarification prompt =>
                setClarifyPrompt (Some prompt) ;; setState Clarification
            end)
           (fun processingError =>
              setErrorMessage
                (Some (message_or processingError
                         "Couldn't process that. Please try again.")) ;;
              setState Error))
    (fun e =>
       setErrorMessage
         (Some (truthy_message_or e
                  "Could not process recording. Please try again.")) ;;
       setState Error ;;
       set_liveModeRef false).

Definition reset_to_idle : M unit :=
  setClarifyPrompt None ;;
  setErrorMessage None ;;
  set_liveModeRef false ;;
  setState Idle.

Definition handleCancel (v : Revision) : M unit :=
  try_catch
    (setState Cancelled ;;
     let* live := read (fun w => Home.liveModeRef (home w)) in
     (if live then
        try_catch (voiceApi_stopLiveRecognition ;; ret tt) (fun _ => ret tt) ;;
        set_liveModeRef false
      else
        try_catch
          (stopRecording v ;; ret tt)
          (fun _ => try_catch (cancelRecording v) (fun _ => ret tt))) ;;
     try_catch AudioService.cleanupOldRecordings (fun _ => ret tt) ;;
     reset_to_idle)
    (fun _ => reset_to_idle).

End ScreenA.

(** *** The screen without the [Cancelled] phase *)
Module ScreenB.

Definition processRecording (h0 : Home.t) (uri mimeType : string) (durationMs : option Z)
  : M VoiceApi.ProcessVoiceResult :=
  let* clientTs := Date_now_call in
  let input :=
    {| VoiceApi.audioUri := uri; VoiceApi.mimeType := mimeType;
       VoiceApi.clientTs := clientTs;
       VoiceApi.context :=
         match Home.state h0 with
         | Clarification =>
             Some {[ "previousPrompt" :=
                       match Home.clarifyPrompt h0 with
                       | Some p => VoiceApi.JStr p
                       | None => VoiceApi.JNull
                       end ]}
         | _ => None
         end |} in
  voiceApi_processVoice input.

Definition handleStop (v : Revision) : M unit :=
  let* h0 := read home in
  try_catch
    (let* live := read (fun w => Home.liveModeRef (home w)) in
     if live then
       setState Processing ;;
       let* transcript := voiceApi_stopLiveRecognition in
       let* now := Date_now_call in
       addRecording (live_item transcript now) ;;
       setClarifyPrompt None ;;
       (if is_success (Home.scenario h0) && truthy_str transcript
        then play_cue else ret tt) ;;
       setState Idle ;;
       set_liveModeRef false
     else
       let* r := stopRecording v in
       setState Processing ;;
       try_catch
         (let* res :=
            processRecording h0 (AudioService.uri r) (AudioService.mimeType r)
              (AudioService.duration r) in
          match res with
          | VoiceApi.ok transcript =>
              let durationSec :=
                match AudioService.duration r with
                | Some d => Some (Math_round_seconds (Some d))
                | None => None
                end in
              let* now := Date_now_call in
              addRecording
                {| Item.transcript := transcript; Item.uri := AudioService.uri r;
                   Item.timestamp := now; Item.durationSec := durationSec |} ;;
              setClarifyPrompt None ;;
              (if is_success (Home.scenario h0) then play_cue else ret tt) ;;
              setState Idle
          | VoiceApi.clarification prompt =>
              setClarifyPrompt (Some prompt) ;; setState Clarification
          end)
         (fun err =>
            setErrorMessage
              (Some (message_or err "Couldn't process that. Please try again.")) ;;
            setState Error))
    (fun e =>
       setErrorMessage
         (Some (truthy_message_or e
                  "Could not process recording. Please try again.")) ;;
       setState Error ;;
       set_liveModeRef false).

Definition handleCancel (v : Revision) : M unit :=
  try_catch
    (let* live := read (fun w => Home.liveModeRef (home w)) in
     (if live then
        voiceApi_stopLiveRecognition ;;
        set_liveModeRef false
      else cancelRecording v) ;;
     setState Idle)
    (fun _ => setState Idle ;; set_liveModeRef false).

End ScreenB.

(** *** What a returned reference is checked against *)



(** The controller is back at rest: phase Idle, no pending prompt, no
    error message. *)
Definition settled (w : World) : Prop :=
  Home.state (home w) = Idle /\
  Home.clarifyPrompt (home w) = None /\
  Home.errorMessage (home w) = None.


End Controller.

(** ** expo-av: permissions and fresh recording handles *)

Module Expo.
Import Effects Platform.

(** What [Audio.requestPermissionsAsync()] resolves to; [granted] is
    [None] when the response carries no such field. *)
Record PermissionResponse := { granted : option bool; status : string }.

(** A handle fresh from [new Audio.Recording()], with the answers of
    the two calls that start it. *)
Record Fresh := {
  handle : Recording;
  prepareToRecordAsync : nat -> Outcome unit;
  startAsync : nat -> Outcome unit
}.

(** The [Audio] object. A function the SDK does not expose is [None];
    a response of [None] is [null] or [undefined]. [Recording_new] is
    the handle [new Audio.Recording()] creates at a given tick. *)
Record Audio := {
  setIsEnabledAsync : nat -> Outcome unit;
  setAudioModeAsync : nat -> Outcome unit;
  requestPermissionsAsync : option (nat -> Outcome (option PermissionResponse));
  getPermissionsAsync : option (nat -> Outcome (option PermissionResponse));
  Recording_new : nat -> Fresh
}.

(** Calling a function that does not exist throws a [TypeError]. *)
Definition TypeError : Thrown := ErrorObj "undefined is not a function".

(** [res.granted ?? res.status === 'granted'] *)
Definition granted_or_status (r : PermissionResponse) : bool :=
  default (String.eqb (status r) "granted") (granted r).

End Expo.

(** ** services/AudioService.ts: permission and start *)

Module AudioServiceStart.
Import Js Effects Platform Expo.
Local Open Scope js_scope.

(** [initAudioMode()]. [initPromise] is null whenever no call is in
    flight, so a call that runs to completion never takes the early
    return; every failure is swallowed. *)
Definition initAudioMode (audio : Audio) : M unit :=
  try_catch
    (call (fun _ => setIsEnabledAsync audio) ;;
     call (fun _ => setAudioModeAsync audio))
    (fun _ => ret tt).

(** [ensurePermission()]:
    [(res && (res.granted ?? res.status === 'granted')) ?? false] *)
Definition ensurePermission (audio : Audio) : M bool :=
  try_catch
    (let* res :=
       match requestPermissionsAsync audio with
       | Some request => call (fun _ => request)
       | None => throw TypeError
       end in
     ret match res with
         | Some r => granted_or_status r
         | None => false
         end)
    (fun _ => ret false).

(** [startRecording()] *)
Definition startRecording (audio : Audio) : M unit :=
  let* this_recording := read recording in
  match this_recording with
  | Some _ => AudioService.cancelRecording
  | None => ret tt
  end ;;
  initAudioMode audio ;;
  let* has := ensurePermission audio in
  if negb has then throw (ErrorObj "Microphone permission not granted")
  else
    let* rec := read (fun w => Recording_new audio (tick w)) in
    try_catch
      (call (fun _ => prepareToRecordAsync rec) ;;
       call (fun _ => startAsync rec) ;;
       modify (set_recording (Some (handle rec))))
      (fun e =>
         try_catch
           (call (fun _ => stopAndUnloadAsync (handle rec)))
           (fun _ => ret tt) ;;
         modify (set_recording None) ;;
         throw e).

End AudioServiceStart.

(** ** The later revision of AudioService.ts: permission and start *)

Module AudioService2Start.
Import Js Effects Platform Expo.
Local Open Scope js_scope.

Definition initAudioMode (audio : Audio) : M unit :=
  AudioServiceStart.initAudioMode audio.

(** [ensurePermission()]:
    [res = await requestPermissionsAsync?.() ?? getPermissionsAsync?.()],
    then [!!(res && (res.granted ?? res.status === 'granted'))].
    [await] binds tighter than [??]: when the request is missing or
    resolves to nothing, [res] is the promise of the fallback call, not
    its response, and a promise has neither [granted] nor [status]. *)
Definition ensurePermission (audio : Audio) : M bool :=
  try_catch
    (let* res :=
       match requestPermissionsAsync audio with
       | Some request => call (fun _ => request)
       | None => ret None
       end in
     match res with
     | Some r => ret (granted_or_status r)
     | None =>
         match getPermissionsAsync audio with
         | Some _ => modify (fun w => set_tick (S (tick w)) w)
         | None => ret tt
         end ;;
         ret false
     end)
    (fun _ => ret false).

(** [startRecording()] *)
Definition startRecording (audio : Audio) : M unit :=
  let* this_recording := read recording in
  match this_recording with
  | Some _ => try_catch AudioService2.cancelRecording (fun _ => ret tt)
  | None => ret tt
  end ;;
  initAudioMode audio ;;
  let* has := ensurePermission audio in
  if negb has then throw (ErrorObj "Microphone permission not granted")
  else
    let* rec := read (fun w => Recording_new audio (tick w)) in
    try_catch
      (call (fun _ => prepareToRecordAsync rec) ;;
       call (fun _ => startAsync rec) ;;
       modify (set_recording (Some (handle rec))) ;;
       let* now := Date_now_call in
       modify (set_recordingStartTs (Some now)))
      (fun err =>
         try_catch
           (call (fun _ => stopAndUnloadAsync (handle rec)))
           (fun _ => ret tt) ;;
         modify (set_recording None) ;;
         modify (set_recordingStartTs None) ;;
         throw err).

End AudioService2Start.

(** ** services/AudioManager.ts: loading the cues *)

Module Cues.
Import Effects Platform.
Local Open Scope js_scope.

(** The two assets; a loaded sound is identified by its asset. *)
Definition audiofile1 : nat := 1.
Definition audiofile2 : nat := 2.

Definition begin_load (leaves : list nat) (a : Player.t) : Player.t :=
  {| Player.successSounds := Player.successSounds a;
     Player.currentIndex := Player.currentIndex a;
     Player.loadPromise := Some leaves;
     Player.replays := Player.replays a |}.

(** [loadSounds()] up to the point where its promise is handed back:
    a load in flight is shared; otherwise the two [loadAsync] calls are
    made, and the promise will leave both sounds, or none if either
    call rejected. [loadAsync] gives the answer for an asset at a tick. *)
Definition loadSounds (loadAsync : nat -> nat -> option Thrown) : M unit :=
  let* pending := read (fun w => Player.loadPromise (audioManager w)) in
  match pending with
  | Some _ => ret tt
  | None =>
      let load asset :=
        call (fun _ t => match loadAsync asset t with
                         | Some e => Throw e
                         | None => Return tt
                         end) in
      let* leaves :=
        try_catch
          (load audiofile1 ;; load audiofile2 ;; ret [audiofile1; audiofile2])
          (fun _ => ret []) in
      modify (fun w => set_audioManager (begin_load leaves (audioManager w)) w)
  end.

(** The promise of [loadSounds()] settling: the sounds are stored and
    [loadPromise] is reset. *)
Definition settle : M unit :=
  let* pending := read (fun w => Player.loadPromise (audioManager w)) in
  match pending with
  | Some leaves =>
      modify (fun w => set_audioManager (AudioManager.set_sounds leaves (audioManager w)) w)
  | None => ret tt
  end.

End Cues.

(** ** components/ptt-button.tsx *)

Module PttButton.
Import Effects Platform.
Local Open Scope js_scope.

(** The state of the button: [isRecording] (a [useState] cell) and the
    two refs. *)
Record t := {
  isRecording : bool;
  isProcessingRef : bool;
  longPressRef : bool
}.

Definition initial : t :=
  {| isRecording := false; isProcessingRef := false; longPressRef := false |}.

Definition set_isRecording (b : bool) (p : t) : t :=
  {| isRecording := b; isProcessingRef := isProcessingRef p;
     longPressRef := longPressRef p |}.
Definition set_isProcessingRef (b : bool) (p : t) : t :=
  {| isRecording := isRecording p; isProcessingRef := b;
     longPressRef := longPressRef p |}.
Definition set_longPressRef (b : bool) (p : t) : t :=
  {| isRecording := isRecording p; isProcessingRef := isProcessingRef p;
     longPressRef := b |}.

(** [startRecording]: [onStart] runs with [isProcessingRef] set;
    [isRecording] becomes true only if [onStart] returns. *)
Definition startRecording (onStart : M unit) (p : t) : M t :=
  if isProcessingRef p || isRecording p then ret p
  else
    let p := set_isProcessingRef true p in
    let* p :=
      try_catch (onStart ;; ret (set_isRecording true p)) (fun _ => ret p) in
    ret (set_isProcessingRef false p).

Definition stopRecording (onStop : M unit) (p : t) : M t :=
  if isProcessingRef p || negb (isRecording p) then ret p
  else
    let p := set_isProcessingRef true p in
    let* p :=
      try_catch (onStop ;; ret (set_isRecording false p)) (fun _ => ret p) in
    ret (set_isProcessingRef false p).

(** [handlePress]: a tap toggles. *)
Definition handlePress (onStart onStop : M unit) (p : t) : M t :=
  if isProcessingRef p then ret p
  else if isRecording p then stopRecording onStop p
  else startRecording onStart p.

Definition handlePressIn (onStart : M unit) (p : t) : M t :=
  startRecording onStart (set_longPressRef true p).

Definition handlePressOut (onStop : M unit) (p : t) : M t :=
  if longPressRef p then
    let* p := stopRecording onStop p in
    ret (set_longPressRef false p)
  else ret p.

End PttButton.

(** ** The home screen: start, time picker, scenario toggle *)

Module Screens.
Import Js Effects Platform Expo Controller.
Local Open Scope js_scope.

Definition ensurePermission (v : Revision) (audio : Audio) : M bool :=
  match v with
  | rev1 => AudioServiceStart.ensurePermission audio
  | rev2 => AudioService2Start.ensurePermission audio
  end.

Definition startRecording (v : Revision) (audio : Audio) : M unit :=
  match v with
  | rev1 => AudioServiceStart.startRecording audio
  | rev2 => AudioService2Start.startRecording audio
  end.

(** [voiceApi.startLiveRecognition()] and [voiceApi.setScenario(s)] *)
Definition voiceApi_startLiveRecognition : M unit :=
  modify (fun w => set_voiceApi (VoiceApi.startLiveRecognition (voiceApi w)) w).
Definition voiceApi_setScenario (s : VoiceApi.Scenario) : M unit :=
  modify (fun w => set_voiceApi (VoiceApi.setScenario s (voiceApi w)) w).

(** The [setScenario] of the screen's [useState] cell. *)
Definition setScenario (s : VoiceApi.Scenario) : M unit :=
  with_home (fun h =>
    {| Home.state := Home.state h; Home.recordings := Home.recordings h;
       Home.errorMessage := Home.errorMessage h;
       Home.clarifyPrompt := Home.clarifyPrompt h;
       Home.scenario := s; Home.liveModeRef := Home.liveModeRef h |}).

Definition scenario_eqb (a b : VoiceApi.Scenario) : bool :=
  match a, b with
  | VoiceApi.success, VoiceApi.success
  | VoiceApi.clarify, VoiceApi.clarify
  | VoiceApi.networkError, VoiceApi.networkError
  | VoiceApi.serverError, VoiceApi.serverError => true
  | _, _ => false
  end.

(** *** Dates and their rendering *)

(** The local-time fields of a [Date]. *)
Record Date := {
  getFullYear : Z;
  getMonth : Z;
  getDate : Z;
  getHours : Z;
  getMinutes : Z
}.

(** [n.toString()] of an integer. *)
Definition toString (n : Z) : string :=
  match n with
  | Z0 => "0"
  | Zpos p => NilEmpty.string_of_uint (Pos.to_uint p)
  | Zneg p => "-" ++ NilEmpty.string_of_uint (Pos.to_uint p)
  end.

(** [s.padStart(2, '0')] *)
Definition padStart2 (s : string) : string :=
  match String.length s with
  | O => "00"
  | S O => "0" ++ s
  | _ => s
  end.

(** [hours % 12 || 12] *)
Definition hours12 (hours : Z) : Z :=
  if (Z.rem hours 12 =? 0)%Z then 12%Z else Z.rem hours 12.

Definition getOrdinal (n : Z) : string :=
  let v := Z.rem n 100 in
  if (11 <=? v)%Z && (v <=? 13)%Z then "th"
  else
    match Z.rem n 10 with
    | 1%Z => "st"
    | 2%Z => "nd"
    | 3%Z => "rd"
    | _ => "th"
    end.

Definition months : list string :=
  ["Jan"; "Feb"; "Mar"; "Apr"; "May"; "Jun"; "Jul"; "Aug"; "Sep"; "Oct"; "Nov"; "Dec"].

(** [formatTimestamp(ts)], given the fields of [new Date(ts)]. *)
Definition formatTimestamp (d : Date) : string :=
  let month := default "undefined" (get months (getMonth d)) in
  let day := getDate d in
  let year := getFullYear d in
  let hours := getHours d in
  let minutes := padStart2 (toString (getMinutes d)) in
  let period := if (12 <=? hours)%Z then "pm" else "am" in
  month ++ " " ++ toString day ++ getOrdinal day ++ ", " ++ toString year ++ " • "
    ++ toString (hours12 hours) ++ ":" ++ minutes ++ period.

(** The [timeString] of the time picker. *)
Definition timeString (date : Date) : string :=
  let hours := getHours date in
  let minutes := getMinutes date in
  let period := if (12 <=? hours)%Z then "PM" else "AM" in
  let formattedHours := hours12 hours in
  let formattedMinutes := padStart2 (toString minutes) in
  toString formattedHours ++ ":" ++ formattedMinutes ++ " " ++ period.

(** [previousPrompt: clarifyPrompt] in a context record. *)
Definition prompt_value (p : option string) : VoiceApi.JsVal :=
  match p with
  | Some p => VoiceApi.JStr p
  | None => VoiceApi.JNull
  end.

(** *** The screen with the [Cancelled] phase *)
Module A.

Definition handleStart (v : Revision) (audio : Audio) : M unit :=
  setErrorMessage None ;;
  let* ok := ensurePermission v audio in
  if negb ok then
    setErrorMessage
      (Some "Microphone permission is required. Please enable it and try again.") ;;
    setState Error
  else
    try_catch
      (let* liveAvailable := read (fun w => VoiceApi.isAvailable (voiceApi w)) in
       let useLive := liveAvailable in
       set_liveModeRef useLive ;;
       setState Listening ;;
       if useLive then voiceApi_startLiveRecognition
       else startRecording v audio)
      (fun e =>
         setErrorMessage (Some (truthy_message_or e "Could not start recording.")) ;;
         setState Error ;;
         set_liveModeRef false).

(** The [onSelectTime] handler of the time picker. The request it
    builds, with the chosen time, is only read for its [audioUri] and
    [mimeType]: [processRecording] builds the request that is sent.
    The visibility of the overlay is display state outside this model. *)
Definition onSelectTime (date : Date) : M unit :=
  let* h0 := read home in
  let* clientTs := Date_now_call in
  let input :=
    {| VoiceApi.audioUri := ""; VoiceApi.mimeType := "text/plain";
       VoiceApi.clientTs := clientTs;
       VoiceApi.context :=
         Some {[ "previousPrompt" := prompt_value (Home.clarifyPrompt h0);
                 "selectedTime" := VoiceApi.JStr (timeString date) ]} |} in
  setState Processing ;;
  try_catch
    (let* res :=
       ScreenA.processRecording h0 (VoiceApi.audioUri input) (VoiceApi.mimeType input)
         None in
     match res with
     | VoiceApi.ok transcript =>
         let* now := Date_now_call in
         addRecording
           {| Item.transcript := transcript; Item.uri := "";
              Item.timestamp := now; Item.durationSec := None |} ;;
         setClarifyPrompt None ;;
         (if is_success (Home.scenario h0) then play_cue else ret tt) ;;
         setState Idle
     | VoiceApi.clarification prompt =>
         play_cue ;;
         setClarifyPrompt (Some prompt) ;;
         setState Clarification
     end)
    (fun err =>
       setErrorMessage
         (Some (message_or err "Couldn't process that. Please try again.")) ;;
       setState Error).

(** The effect that previews a scenario when it is toggled. *)
Definition preview (s : VoiceApi.Scenario) : M unit :=
  setErrorMessage None ;;
  setClarifyPrompt None ;;
  setState Idle ;;
  match s with
  | VoiceApi.networkError =>
      setErrorMessage
        (Some "Network error: Please check your internet connection and try again.") ;;
      setState Error
  | VoiceApi.serverError =>
      setErrorMessage
        (Some "Server error: Something went wrong on our end. Please try again later.") ;;
      setState Error
  | VoiceApi.clarify =>
      setClarifyPrompt (Some "What time would you like to set the meeting to?") ;;
      setState Clarification
  | VoiceApi.success =>
      setErrorMessage None ;;
      setClarifyPrompt None ;;
      setState Idle
  end.

(** A tap on a chip of the scenario toggle, and the effects of the
    render that follows: they run only if the scenario has changed. *)
Definition selectScenario (opt : VoiceApi.Scenario) : M unit :=
  let* h0 := read home in
  voiceApi_setScenario opt ;;
  setScenario opt ;;
  if scenario_eqb (Home.scenario h0) opt then ret tt
  else
    voiceApi_setScenario opt ;;
    preview opt.

End A.

(** *** The screen without the [Cancelled] phase *)
Module B.

Definition handleStart (v : Revision) (audio : Audio) : M unit :=
  let* h0 := read home in
  setErrorMessage None ;;
  let* ok := ensurePermission v audio in
  if negb ok then
    setErrorMessage
      (Some "Microphone permission is required. Please enable it and try again.") ;;
    setState Error
  else
    try_catch
      (let* liveAvailable := read (fun w => VoiceApi.isAvailable (voiceApi w)) in
       let useLive := liveAvailable && is_success (Home.scenario h0) in
       set_liveModeRef useLive ;;
       setState Listening ;;
       if useLive then voiceApi_startLiveRecognition
       else startRecording v audio)
      (fun e =>
         setErrorMessage (Some (truthy_message_or e "Could not start recording.")) ;;
         setState Error ;;
         set_liveModeRef false).

Definition onSelectTime (date : Date) : M unit :=
  let* h0 := read home in
  let* clientTs := Date_now_call in
  let input :=
    {| VoiceApi.audioUri := ""; VoiceApi.mimeType := "text/plain";
       VoiceApi.clientTs := clientTs;
       VoiceApi.context :=
         Some {[ "previousPrompt" := prompt_value (Home.clarifyPrompt h0);
                 "selectedTime" := VoiceApi.JStr (timeString date) ]} |} in
  setState Processing ;;
  try_catch
    (let* res :=
       ScreenB.processRecording h0 (VoiceApi.audioUri input) (VoiceApi.mimeType input)
         None in
     match res with
     | VoiceApi.ok transcript =>
         let* now := Date_now_call in
         addRecording
           {| Item.transcript := transcript; Item.uri := "";
              Item.timestamp := now; Item.durationSec := None |} ;;
         setClarifyPrompt None ;;
         (if is_success (Home.scenario h0) then play_cue else ret tt) ;;
         setState Idle
     | VoiceApi.clarification prompt =>
         setClarifyPrompt (Some prompt) ;;
         setState Clarification
     end)
    (fun err =>
       setErrorMessage
         (Some (message_or err "Couldn't process that. Please try again.")) ;;
       setState Error).

Definition selectScenario (opt : VoiceApi.Scenario) : M unit :=
  let* h0 := read home in
  voiceApi_setScenario opt ;;
  setScenario opt ;;
  if scenario_eqb (Home.scenario h0) opt then ret tt
  else voiceApi_setScenario opt.

End B.

End Screens.

(** ** The application: events handled one after another *)

Module App.
Import Js Effects Platform Expo Controller.

Inductive Screen := screenA | screenB.

(** What can happen: the user taps the talk button, taps the cancel
    button of the capture overlay, taps a chip of the scenario toggle or
    picks a time; or the promise of [loadSounds()] settles. *)
Inductive Event :=
| Press
| Cancel
| Select (s : VoiceApi.Scenario)
| PickTime (date : Screens.Date)
| Loaded.

Record t := { world : World; button : PttButton.t }.

Definition handleStart (s : Screen) : Revision -> Audio -> M unit :=
  match s with
  | screenA => Screens.A.handleStart
  | screenB => Screens.B.handleStart
  end.

Definition handleStop (s : Screen) : Revision -> M unit :=
  match s with
  | screenA => ScreenA.handleStop
  | screenB => ScreenB.handleStop
  end.

Definition handleCancel (s : Screen) : Revision -> M unit :=
  match s with
  | screenA => ScreenA.handleCancel
  | screenB => ScreenB.handleCancel
  end.

Definition onSelectTime (s : Screen) : Screens.Date -> M unit :=
  match s with
  | screenA => Screens.A.onSelectTime
  | screenB => Screens.B.onSelectTime
  end.

Definition selectScenario (s : Screen) : VoiceApi.Scenario -> M unit :=
  match s with
  | screenA => Screens.A.selectScenario
  | screenB => Screens.B.selectScenario
  end.

(** One event, handled to completion. The capture overlay, and with it
    the cancel button, is rendered only in the Listening phase. *)
Definition step (s : Screen) (v : Revision) (audio : Audio) (ev : Event) (app : t) : t :=
  match ev with
  | Press =>
      match PttButton.handlePress (handleStart s v audio) (handleStop s v)
              (button app) (world app) with
      | (Return p, w) => {| world := w; button := p |}
      | (Throw _, w) => {| world := w; button := button app |}
      end
  | Cancel =>
      match Home.state (home (world app)) with
      | Listening =>
          {| world := snd (handleCancel s v (world app)); button := button app |}
      | _ => app
      end
  | Select opt =>
      {| world := snd (selectScenario s opt (world app)); button := button app |}
  | PickTime date =>
      {| world := snd (onSelectTime s date (world app)); button := button app |}
  | Loaded =>
      {| world := snd (Cues.settle (world app)); button := button app |}
  end.

Definition run (s : Screen) (v : Revision) (audio : Audio) (evs : list Event) (app : t) : t :=
  fold_left (fun app ev => step s v audio ev app) evs app.

(** The screen as first rendered, and the effects of mounting it: the
    gateway is given the scenario, the first screen previews it, the
    cues start loading and the sweep of old recordings is started. *)
Definition initial_home : Home.t :=
  {| Home.state := Idle; Home.recordings := [];
     Home.errorMessage := None; Home.clarifyPrompt := None;
     Home.scenario := VoiceApi.success; Home.liveModeRef := false |}.

Definition blank (e : Env) (fs : gmap string N) : World :=
  {| tick := 0; env := e; files := fs;
     voiceApi := VoiceApi.new None None;
     recording := None; recordingStartTs := None;
     audioManager :=
       {| Player.successSounds := []; Player.currentIndex := 0;
          Player.loadPromise := None; Player.replays := [] |};
     home := initial_home |}.

Definition mount (s : Screen) (loadAsync : nat -> nat -> option Thrown) : M unit :=
  bind (Screens.voiceApi_setScenario VoiceApi.success) (fun _ =>
  bind (match s with
        | screenA => Screens.A.preview VoiceApi.success
        | screenB => ret tt
        end) (fun _ =>
  bind (Cues.loadSounds loadAsync) (fun _ =>
  AudioService.cleanupOldRecordings))).

Definition launch (s : Screen) (loadAsync : nat -> nat -> option Thrown)
    (e : Env) (fs : gmap string N) : t :=
  {| world := snd (mount s loadAsync (blank e fs)); button := PttButton.initial |}.

End App.

(** ** Sample worlds *)

Module Samples.
Import Js Effects Platform.

Definition steady_env : Env :=
  {| Date_now := fun t => (Z.of_nat t + 1700000000000)%Z;
     Math_random := fun _ => lit_0_5;
     probe_rejects := fun _ => None;
     delete_rejects := fun _ => None;
     replay_rejects := fun _ => None;
     sweep := fun fs => fs |}.


Definition rec_uri : string := "file:///cache/rec.m4a".

Definition handle : Recording :=
  {| getStatusAsync := fun _ =>
       Return {| isRecording := true; durationMillis := Some 2400%Z;
                 metering := Some (of_Z (-20)) |};
     stopAndUnloadAsync := fun _ => Return tt;
     unloadAsync := None;
     getURI := Some rec_uri |}.

Definition player : Player.t :=
  {| Player.successSounds := [1; 2]%nat; Player.currentIndex := 0%nat;
     Player.loadPromise := None; Player.replays := [] |}.

Definition listening (s : VoiceApi.Scenario) (live : bool) : Home.t :=
  {| Home.state := Listening; Home.recordings := [];
     Home.errorMessage := None; Home.clarifyPrompt := None;
     Home.scenario := s; Home.liveModeRef := live |}.


Definition stored : gmap string N := {[ rec_uri := 4096%N ]}.


(** A square wave of period four samples. *)
Definition square_wave : list num :=
  concat (replicate 4 [of_Z 1; of_Z 1; of_Z (-1); of_Z (-1)]).







(** A live recognition under scenario Clarify. *)
Definition live_clarify : World :=
  {| tick := 0; env := steady_env; files := ∅;
     voiceApi :=
       VoiceApi.startLiveRecognition
         (VoiceApi.setScenario VoiceApi.clarify (VoiceApi.new None None));
     recording := None; recordingStartTs := None;
     audioManager := player; home := listening VoiceApi.clarify true |}.

(** A capture started from the Clarification phase: the prompt is
    still pending. *)
Definition prompted : World :=
  {| tick := 0; env := steady_env; files := stored;
     voiceApi := VoiceApi.setScenario VoiceApi.clarify (VoiceApi.new None None);
     recording := Some handle; recordingStartTs := Some 1700000000000%Z;
     audioManager := player;
     home := {| Home.state := Listening; Home.recordings := [];
                Home.errorMessage := None;
                Home.clarifyPrompt := Some "What time should I set it for?";
                Home.scenario := VoiceApi.clarify; Home.liveModeRef := false |} |}.

(** Sixty pushes of a silent sample: both buffers are full. *)
Definition full_buffers : Visualizer.Refs :=
  Visualizer.push_all (replicate 60 (zero, zero)) Visualizer.initial.

Definition clarify_gateway : VoiceApi.VoiceApiImpl :=
  VoiceApi.setScenario VoiceApi.clarify (VoiceApi.new None None).

Definition plain_input : VoiceApi.ProcessVoiceInput :=
  {| VoiceApi.audioUri := rec_uri; VoiceApi.mimeType := "audio/m4a";
     VoiceApi.clientTs := 0; VoiceApi.context := None |}.

Definition timed_input : VoiceApi.ProcessVoiceInput :=
  {| VoiceApi.audioUri := ""; VoiceApi.mimeType := "text/plain";
     VoiceApi.clientTs := 0;
     VoiceApi.context := Some {[ "selectedTime" := VoiceApi.JStr "3:00 PM" ]} |}.

Definition no_draws : VoiceApi.Draws :=
  {| VoiceApi.draw_transcript := zero; VoiceApi.draw_coin := zero;
     VoiceApi.draw_prompt := zero |}.

End Samples.

(** ** Reasoning about effectful code *)

Module Logic.
Import Effects Platform.

(** [wp m Q E w]: run from [w], [m] returns in a world satisfying [Q]
    or throws in a world satisfying [E]. *)
Definition wp {A} (m : M A) (Q : A -> World -> Prop) (E : Thrown -> World -> Prop)
    (w : World) : Prop :=
  match m w with
  | (Return a, w') => Q a w'
  | (Throw e, w') => E e w'
  end.


Ltac split_answer :=
  match goal with
  | |- context [match getStatusAsync ?r ?t with _ => _ end] =>
      destruct (getStatusAsync r t) as [[? ? ?]|?]; simpl
  | |- context [match stopAndUnloadAsync ?r ?t with _ => _ end] =>
      destruct (stopAndUnloadAsync r t) as [[]|?]; simpl
  | |- context [match probe_rejects ?e ?t with _ => _ end] =>
      destruct (probe_rejects e t) eqn:?; simpl
  | |- context [match delete_rejects ?e ?t with _ => _ end] =>
      destruct (delete_rejects e t) eqn:?; simpl
  | |- context [match getURI ?r with _ => _ end] =>
      destruct (getURI r) eqn:?; simpl
  | |- context [if truthy_str ?u then _ else _] =>
      destruct (truthy_str u) eqn:?; simpl
  | |- context [match ?fs !! ?u with _ => _ end] =>
      destruct (fs !! u) eqn:?; simpl
  | |- context [if (?n =? 0)%N then _ else _] =>
      destruct (N.eqb_spec n 0%N); simpl
  | |- context [if (?n <=? 0)%N then _ else _] =>
      destruct (N.leb_spec n 0%N); simpl
  | |- context [match recordingStartTs ?w with _ => _ end] =>
      destruct (recordingStartTs w) eqn:?; simpl
  | |- context [if (?z =? 0)%Z then _ else _] =>
      destruct (z =? 0)%Z eqn:?; simpl
  | |- context [match ?d with _ => _ end] =>
      is_var d; destruct d; simpl
  end.

(** Symbolic execution of the capture service: [ticks] is the lemma
    that [safeStopAndUnload] returns and only advances the tick. *)
Ltac run_safeStop ticks :=
  match goal with
  | |- context [AudioService.safeStopAndUnload ?r ?w] =>
      let n := fresh "n" in
      let Hn := fresh "Hn" in
      destruct (ticks r w) as (n & -> & Hn); simpl
  end.

Ltac exec ticks := repeat (first [split_answer | run_safeStop ticks]).

Ltac unfold_m :=
  unfold try_finally, try_catch, bind, call, ret, modify, read, throw, probe,
    deleteAsync, Date_now_call, info_of; simpl.



End Logic.

(** * The recognition gateway *)

Section Gateway.
Import Effects VoiceApi Samples.




(** C1. In scenario Clarify with the follow-up flag disarmed, a call
    whose context carries no (truthy) [selectedTime] returns the
    clarification "What time should I set it for?" and arms the flag;
    the next call, whatever its input and draws, returns Ok with the
    transcript "Okay — got it (follow-up)." and disarms the flag. *)
Theorem processVoice_clarify_then_followup
    (this : VoiceApiImpl) (input1 input2 : ProcessVoiceInput) (rnd1 rnd2 : Draws) :
  scenario this = clarify ->
  completeNextAsSuccess this = false ->
  truthy_val (selectedTime input1) = false ->
  let first := processVoice input1 rnd1 this in
  let second := processVoice input2 rnd2 (snd first) in
  fst first = Return (clarification "What time should I set it for?") /\
  completeNextAsSuccess (snd first) = true /\
  fst second = Return (ok "Okay — got it (follow-up).") /\
  completeNextAsSuccess (snd second) = false.
Proof.
  intros Hs Hflag Htime. unfold processVoice.
  rewrite Hflag, Hs, Htime. simpl. auto.
Qed.

Lemma processVoice_clarify_then_followup_witness :
  let first := processVoice plain_input no_draws clarify_gateway in
  let second := processVoice plain_input no_draws (snd first) in
  fst first = Return (clarification "What time should I set it for?") /\
  completeNextAsSuccess (snd first) = true /\
  fst second = Return (ok "Okay — got it (follow-up).") /\
  completeNextAsSuccess (snd second) = false.
Proof.
  apply (processVoice_clarify_then_followup clarify_gateway plain_input plain_input
           no_draws no_draws); reflexivity.
Defined.



(** C7. In scenario Clarify with the follow-up flag disarmed, a call
    whose context carries [selectedTime = "3:00 PM"] returns Ok with
    the transcript "Alarm set for 3:00 PM." and leaves the gateway as
    it was: no clarification, and the flag stays disarmed. *)
Theorem processVoice_clarify_selected_time
    (this : VoiceApiImpl) (input : ProcessVoiceInput) (rnd : Draws)
    (ctx : gmap string JsVal) :
  scenario this = clarify ->
  completeNextAsSuccess this = false ->
  context input = Some ctx ->
  ctx !! "selectedTime" = Some (JStr "3:00 PM") ->
  processVoice input rnd this = (Return (ok "Alarm set for 3:00 PM."), this) /\
  completeNextAsSuccess (snd (processVoice input rnd this)) = false.
Proof.
  intros Hs Hflag Hctx Htime.
  assert (Hsel : selectedTime input = JStr "3:00 PM").
  { unfold selectedTime. rewrite Hctx, Htime. reflexivity. }
  unfold processVoice. rewrite Hflag, Hs, Hsel. simpl. auto.
Qed.

Lemma processVoice_clarify_selected_time_witness :
  processVoice timed_input no_draws clarify_gateway =
    (Return (ok "Alarm set for 3:00 PM."), clarify_gateway) /\
  completeNextAsSuccess (snd (processVoice timed_input no_draws clarify_gateway)) = false.
Proof.
  apply (processVoice_clarify_selected_time clarify_gateway timed_input no_draws
           {[ "selectedTime" := JStr "3:00 PM" ]}); reflexivity.
Defined.

End Gateway.

(** * Numbers: comparisons and NaN *)

Section Numbers.
Import Js.

Lemma fgt_NaN_r x : fgt x NaN = false.
Proof. reflexivity. Qed.

Lemma fgt_NaN_l x : fgt NaN x = false.
Proof. destruct x; reflexivity. Qed.

Lemma fadd_NaN_l x : fadd NaN x = NaN.
Proof. reflexivity. Qed.

Lemma fadd_NaN_r x : fadd x NaN = NaN.
Proof. destruct x; reflexivity. Qed.

Lemma fsub_NaN_l x : fsub NaN x = NaN.
Proof. reflexivity. Qed.

Lemma fdiv_NaN_l x : fdiv NaN x = NaN.
Proof. reflexivity. Qed.

Lemma SFcompare_antisym x y c :
  SFcompare x y = Some c -> SFcompare y x = Some (CompOpp c).
Proof.
  destruct x as [sx|sx| |sx mx ex], y as [sy|sy| |sy my ey]; simpl;
    try discriminate;
    try (destruct sx); try (destruct sy); simpl;
    intros H; inversion H; subst; clear H; try reflexivity; f_equal.
  all: rewrite (Z.compare_antisym ey ex);
    destruct (ey ?= ex)%Z; simpl; try reflexivity;
    change PosDef.Pos.compare_cont with Pos.compare_cont;
    rewrite (Pos.compare_cont_antisym mx my Eq); simpl;
    rewrite ?CompOpp_involutive; reflexivity.
Qed.

(** For comparable numbers, [not (x <= 0)] is [0 < x]. *)
Lemma positive_of_not_le_zero x :
  isFinite x = true -> fle x zero = false -> flt zero x = true.
Proof.
  destruct x as [s|s| |s m e]; simpl; try discriminate.
  unfold fle, flt, SFleb, SFltb; simpl. destruct s; simpl; congruence.
Qed.

(** For comparable numbers, [not (x > y)] is [x <= y]. *)
Lemma le_of_not_gt x y :
  isFinite x = true -> isFinite y = true -> fgt x y = false -> fle x y = true.
Proof.
  intros Hx Hy. unfold fgt, fle, SFltb, SFleb.
  destruct (SFcompare x y) as [c|] eqn:Hc.
  - rewrite (SFcompare_antisym _ _ _ Hc). destruct c; simpl; congruence.
  - destruct x, y; simpl in *; discriminate.
Qed.

End Numbers.

(** * The pitch estimator *)

Section PitchEstimator.
Import Js Visualizer.

Lemma get_out_of_range {A} (c : list A) (i : Z) :
  (i < 0 \/ Z.of_nat (length c) <= i)%Z -> get c i = None.
Proof.
  intros H. unfold get. destruct (i <? 0)%Z eqn:Hi; [reflexivity|].
  apply Z.ltb_ge in Hi. apply lookup_ge_None_2. lia.
Qed.

Lemma get_in_range {A} (c : list A) (i : Z) (x : A) :
  get c i = Some x -> (0 <= i < Z.of_nat (length c))%Z.
Proof.
  unfold get. destruct (i <? 0)%Z eqn:Hi; [discriminate|].
  apply Z.ltb_ge in Hi. intros H. apply lookup_lt_Some in H. lia.
Qed.

(** The descending scan stops at the last index at the latest: the
    read one past the end is [undefined], and no comparison with it
    holds. *)
Lemma descend_halts (c : list num) (fuel : nat) (d : Z) :
  (0 <= d)%Z ->
  (Z.of_nat (length c) - d <= Z.of_nat fuel)%Z ->
  (0 < fuel)%nat ->
  exists d', descend c d fuel = Some d' /\
             (d <= d')%Z /\ (d' <= Z.max d (Z.of_nat (length c) - 1))%Z.
Proof.
  revert d. induction fuel as [|fuel IH]; intros d Hd Hlen Hfuel; [lia|].
  simpl.
  destruct (fgt (toNumber (get c d)) (toNumber (get c (d + 1)%Z))) eqn:Hcmp.
  - destruct (get c (d + 1)%Z) as [x|] eqn:Hnext.
    + apply get_in_range in Hnext.
      destruct (IH (d + 1)%Z) as (d' & Hrun & Hlo & Hhi); [lia|lia|lia|].
      exists d'. split; [exact Hrun|]. lia.
    + simpl in Hcmp. rewrite fgt_NaN_r in Hcmp. discriminate.
  - exists d. split; [reflexivity|]. lia.
Qed.

Lemma descend_more_fuel (c : list num) (fuel fuel' : nat) (d d' : Z) :
  descend c d fuel = Some d' -> (fuel <= fuel')%nat -> descend c d fuel' = Some d'.
Proof.
  revert d fuel'. induction fuel as [|fuel IH]; intros d fuel' Hrun Hle;
    [discriminate|].
  destruct fuel' as [|fuel']; [lia|].
  simpl in *.
  destruct (fgt (toNumber (get c d)) (toNumber (get c (d + 1)%Z))); [|exact Hrun].
  apply IH; [exact Hrun|lia].
Qed.

(** The budget given to the two trimming loops is never the reason
    they stop: once [2 * i < SIZE] fails, more budget changes nothing. *)
Lemma first_hit_budget (SIZE : Z) (hit : Z -> bool) (i : Z) (fuel extra : nat) :
  (SIZE <= 2 * (i + Z.of_nat fuel))%Z ->
  first_hit (fun i => (2 * i <? SIZE)%Z) hit i (fuel + extra) =
  first_hit (fun i => (2 * i <? SIZE)%Z) hit i fuel.
Proof.
  revert i. induction fuel as [|fuel IH]; intros i Hsize.
  - simpl. destruct extra as [|extra]; [reflexivity|]. simpl.
    replace (2 * i <? SIZE)%Z with false; [reflexivity|].
    symmetry. apply Z.ltb_ge. lia.
  - simpl. destruct (2 * i <? SIZE)%Z; [|reflexivity].
    destruct (hit i); [reflexivity|]. apply IH. lia.
Qed.

Lemma length_slice {A} (a : list A) (start end_ : Z) :
  (length (slice a start end_) <= length a)%nat.
Proof.
  unfold slice. rewrite length_take, length_drop. lia.
Qed.

Lemma length_trim (buffer : list num) : (length (trim buffer) <= length buffer)%nat.
Proof. unfold trim. apply length_slice. Qed.

Lemma length_autocorrelation (buffer : list num) :
  length (autocorrelation buffer) = length buffer.
Proof.
  unfold autocorrelation. rewrite length_fmap, length_seqZ. lia.
Qed.

(** A read outside the array on either side of the peak makes the
    coefficient [a] NaN, which is falsy: the lag is left unrefined. *)
Lemma coeff_a_boundary (c : list num) (T0 : Z) :
  get c (T0 - 1)%Z = None \/ get c (T0 + 1)%Z = None -> coeff_a c T0 = NaN.
Proof.
  unfold coeff_a. intros [H|H]; rewrite H; simpl.
  - reflexivity.
  - rewrite fadd_NaN_r. reflexivity.
Qed.

Lemma refine_boundary (c : list num) (T0 : Z) :
  get c (T0 - 1)%Z = None \/ get c (T0 + 1)%Z = None -> refine c T0 = of_Z T0.
Proof.
  intros H. unfold refine. rewrite (coeff_a_boundary c T0 H). reflexivity.
Qed.

Lemma autoCorrelate_fuel_enough (buffer : list num) (sampleRate : num) :
  exists r, forall fuel, (length buffer < fuel)%nat ->
                         autoCorrelate_fuel fuel buffer sampleRate = Some r.
Proof.
  unfold autoCorrelate_fuel.
  destruct (flt (rms_of buffer) lit_0_01); [now exists None|].
  set (c := autocorrelation (trim buffer)).
  destruct (descend_halts c (S (length c)) 0) as (d & Hrun & _); [lia|lia|lia|].
  assert (Hc : (length c <= length buffer)%nat).
  { subst c. rewrite length_autocorrelation. apply length_trim. }
  destruct (peak c d (Z.of_nat (length (trim buffer)))) as [maxval maxpos] eqn:Hpeak.
  destruct (maxpos =? 0)%Z eqn:Hzero;
    [|destruct (negb (isFinite (fdiv sampleRate (refine c maxpos)))
                || fle (fdiv sampleRate (refine c maxpos)) zero
                || fgt (fdiv sampleRate (refine c maxpos)) (of_Z 5000)) eqn:Hguard];
    eexists; intros fuel Hfuel;
    rewrite (descend_more_fuel c (S (length c)) fuel 0 d Hrun) by lia;
    rewrite Hpeak, Hzero; try rewrite Hguard; reflexivity.
Qed.

(** C10. The estimator is total: for every buffer (empty and all-zero
    ones included) and every sample rate it returns [null] or a number,
    whatever iteration budget above the buffer length it is given.
    The descending scan halts within the autocorrelation array, and a
    read at lag-1 or lag+1 that falls outside the array turns the
    coefficient [a] into NaN, so that the lag is left unrefined. *)
Theorem autoCorrelate_total (buffer : list num) (sampleRate : num) :
  (exists r,
      autoCorrelate buffer sampleRate = Some r /\
      forall fuel, (length buffer < fuel)%nat ->
                   autoCorrelate_fuel fuel buffer sampleRate = Some r) /\
  (forall c : list num,
      exists d, descend c 0 (S (length c)) = Some d /\
                (0 <= d <= Z.max 0 (Z.of_nat (length c) - 1))%Z) /\
  (forall (c : list num) (T0 : Z),
      get c (T0 - 1)%Z = None \/ get c (T0 + 1)%Z = None ->
      coeff_a c T0 = NaN /\ truthy (coeff_a c T0) = false /\
      refine c T0 = of_Z T0).
Proof.
  split; [|split].
  - destruct (autoCorrelate_fuel_enough buffer sampleRate) as [r Hr].
    exists r. split; [apply Hr; lia|exact Hr].
  - intros c.
    destruct (descend_halts c (S (length c)) 0) as (d & Hrun & Hlo & Hhi);
      [lia|lia|lia|].
    exists d. split; [exact Hrun|lia].
  - intros c T0 H. rewrite (coeff_a_boundary c T0 H).
    split; [reflexivity|]. split; [reflexivity|]. now apply refine_boundary.
Qed.

(** C5. Whenever the RMS of the buffer is below 0.01 the estimator
    returns [null]; and whenever it returns a frequency, that frequency
    is finite, strictly positive and at most 5000. *)
Theorem autoCorrelate_silence_and_range (buffer : list num) (sampleRate : num) :
  (flt (rms_of buffer) lit_0_01 = true ->
   autoCorrelate buffer sampleRate = Some None) /\
  (forall freq : num,
      autoCorrelate buffer sampleRate = Some (Some freq) ->
      isFinite freq = true /\ flt zero freq = true /\ fle freq (of_Z 5000) = true).
Proof.
  unfold autoCorrelate, autoCorrelate_fuel. split.
  - intros Hrms. rewrite Hrms. reflexivity.
  - intros freq.
    destruct (flt (rms_of buffer) lit_0_01); [discriminate|].
    destruct (descend _ 0 _) as [d|]; [|discriminate].
    destruct (peak _ d _) as [maxval maxpos].
    destruct (maxpos =? 0)%Z; [discriminate|].
    set (f := fdiv sampleRate _).
    destruct (isFinite f) eqn:Hfin; destruct (fle f zero) eqn:Hle;
      destruct (fgt f (of_Z 5000)) eqn:Hgt; cbn [negb orb];
      intros H; try discriminate H.
    inversion H; subst freq. clear H.
    split; [exact Hfin|]. split.
    + now apply positive_of_not_le_zero.
    + now apply le_of_not_gt.
Qed.

Lemma autoCorrelate_total_witness :
  coeff_a [of_Z 3; of_Z 1] 1 = NaN /\
  truthy (coeff_a [of_Z 3; of_Z 1] 1) = false /\
  refine [of_Z 3; of_Z 1] 1 = of_Z 1.
Proof.
  apply (proj2 (proj2 (autoCorrelate_total [] zero))). right. reflexivity.
Defined.

Lemma autoCorrelate_silence_and_range_witness :
  autoCorrelate (replicate 8 zero) (of_Z 44100) = Some None /\
  (isFinite (of_Z 2000) = true /\ flt zero (of_Z 2000) = true /\
   fle (of_Z 2000) (of_Z 5000) = true).
Proof.
  split.
  - apply (proj1 (autoCorrelate_silence_and_range (replicate 8 zero) (of_Z 44100))).
    vm_compute. reflexivity.
  - apply (proj2 (autoCorrelate_silence_and_range Samples.square_wave (of_Z 8000))).
    vm_compute. reflexivity.
Defined.

End PitchEstimator.

(** * The waveform buffers *)

Section Waveform.
Import Js Effects Platform Visualizer Logic.

Lemma push_sample_same_buffers (m f : num) (r1 r2 : Refs) :
  same_buffers r1 r2 -> same_buffers (push_sample m f r1) (push_sample m f r2).
Proof.
  unfold same_buffers, push_sample. intros [Hm Hf]. rewrite Hm, Hf.
  destruct (WAVE_POINTS <? _)%nat; simpl; auto.
Qed.

Lemma push_all_same_buffers (samples : list (num * num)) (r1 r2 : Refs) :
  same_buffers r1 r2 -> same_buffers (push_all samples r1) (push_all samples r2).
Proof.
  revert r1 r2. induction samples as [|s samples IH]; intros r1 r2 H; [exact H|].
  simpl. apply IH. now apply push_sample_same_buffers.
Qed.

Lemma push_all_snoc (samples : list (num * num)) (s : num * num) (r : Refs) :
  push_all (samples ++ [s]) r = push_sample (fst s) (snd s) (push_all samples r).
Proof. unfold push_all. now rewrite fold_left_app. Qed.

Lemma tail_drop_snoc {A} (xs : list A) (x : A) (k : nat) :
  (k < length xs)%nat -> tail (drop k xs ++ [x]) = drop (S k) (xs ++ [x]).
Proof.
  intros Hk.
  rewrite drop_app_le by lia.
  destruct (drop k xs) as [|y ys] eqn:Hd.
  - apply (f_equal length) in Hd. rewrite length_drop in Hd. simpl in Hd. lia.
  - simpl. f_equal.
    change ys with (drop 1 (y :: ys)). rewrite <- Hd, drop_drop.
    f_equal. lia.
Qed.

(** From the empty buffers, both buffers hold the last [WAVE_POINTS]
    samples pushed, oldest first. *)
Lemma push_all_window (samples : list (num * num)) :
  meterBuffer (push_all samples initial) =
    drop (length samples - WAVE_POINTS) (fst <$> samples) /\
  frequencyBuffer (push_all samples initial) =
    drop (length samples - WAVE_POINTS) (snd <$> samples).
Proof.
  induction samples as [|s samples [IHm IHf]] using rev_ind; [now split|].
  rewrite push_all_snoc. unfold push_sample. rewrite IHm, IHf.
  rewrite !fmap_app, !length_app. simpl.
  rewrite length_drop, length_fmap. unfold WAVE_POINTS.
  destruct (60 <? length samples - (length samples - 60) + 1)%nat eqn:Hfull; simpl.
  - apply Nat.ltb_lt in Hfull.
    rewrite !tail_drop_snoc by (rewrite length_fmap; lia).
    split; f_equal; lia.
  - apply Nat.ltb_ge in Hfull.
    replace (length samples - 60)%nat with 0%nat by lia.
    replace (length samples + 1 - 60)%nat with 0%nat by lia.
    now rewrite !drop_0.
Qed.

(** [getRecordingStatus()] never throws. *)
Lemma getRecordingStatus_returns (w : World) :
  exists st w', AudioService.getRecordingStatus w = (Return st, w').
Proof.
  unfold AudioService.getRecordingStatus, bind, read, try_catch, call, ret.
  destruct (recording w) as [rec|]; [|eauto].
  destruct (getStatusAsync rec (tick w)); eauto.
Qed.

(** A run of [updateWaveform] while recording pushes exactly one
    sample on the buffers it was given. *)
Lemma updateWaveform_pushes (os : PlatformOS) (r : Refs) (w : World) :
  exists s r1 w',
    updateWaveform true os r w = (Return (push_sample (fst s) (snd s) r1), w') /\
    same_buffers r1 r.
Proof.
  unfold updateWaveform. cbn [negb].
  unfold bind at 1.
  set (start := if match startTimeRef r with Some ts => (ts =? 0)%Z | None => true end
                then _ else _).
  assert (Hstart : exists r1 w1, start w = (Return r1, w1) /\ same_buffers r1 r).
  { subst start. destruct (match startTimeRef r with Some ts => (ts =? 0)%Z | None => true end).
    - unfold bind, Date_now_call, call, ret. eexists _, _. split; [reflexivity|].
      split; reflexivity.
    - unfold ret. eexists _, _. split; [reflexivity|]. split; reflexivity. }
  destruct Hstart as (r1 & w1 & -> & Hsame).
  unfold bind at 1. unfold Date_now_call at 1. unfold call at 1.
  unfold bind at 1.
  destruct os as [[[dataArray sampleRate]|]|].
  - unfold ret. eexists (_, _), r1, _. split; [reflexivity|exact Hsame].
  - unfold ret. eexists (_, _), r1, _. split; [reflexivity|exact Hsame].
  - unfold bind at 1.
    destruct (getRecordingStatus_returns (set_tick (S (tick w1)) w1)) as (st & w2 & ->).
    unfold ret. eexists _, r1, _. split; [reflexivity|exact Hsame].
Qed.

Lemma run_ticks_pushes (ticks : list PlatformOS) (r : Refs) (w : World) :
  exists samples r' w',
    run_ticks ticks r w = (Return r', w') /\
    length samples = length ticks /\
    same_buffers r' (push_all samples r).
Proof.
  revert r w. induction ticks as [|os ticks IH]; intros r w.
  - exists [], r, w. repeat split.
  - simpl. unfold bind.
    destruct (updateWaveform_pushes os r w) as (s & r1 & w1 & -> & Hsame).
    destruct (IH (push_sample (fst s) (snd s) r1) w1) as (samples & r' & w' & -> & Hlen & Hbuf).
    exists (s :: samples), r', w'. split; [reflexivity|]. split; [simpl; lia|].
    simpl. destruct Hbuf as [Hm Hf].
    destruct (push_all_same_buffers samples _ _ (push_sample_same_buffers (fst s) (snd s) _ _ Hsame))
      as [Hm' Hf'].
    split; congruence.
Qed.

(** C6. Started on the empty buffers, the animation-frame loop never
    throws and amounts to pushing one sample per tick; after any
    sequence of pushes both buffers hold at most [WAVE_POINTS] = 60
    entries, namely the most recent samples in chronological order;
    and a push on full buffers evicts exactly the front entry of each. *)
Theorem waveform_buffer_fifo :
  (forall (ticks : list PlatformOS) (w : World),
      exists samples r w',
        run_ticks ticks initial w = (Return r, w') /\
        length samples = length ticks /\
        same_buffers r (push_all samples initial)) /\
  (forall samples : list (num * num),
      let r := push_all samples initial in
      (length (meterBuffer r) <= WAVE_POINTS)%nat /\
      (length (frequencyBuffer r) <= WAVE_POINTS)%nat /\
      meterBuffer r = drop (length samples - WAVE_POINTS) (fst <$> samples) /\
      frequencyBuffer r = drop (length samples - WAVE_POINTS) (snd <$> samples)) /\
  (forall (m f : num) (r : Refs),
      length (meterBuffer r) = WAVE_POINTS ->
      length (frequencyBuffer r) = WAVE_POINTS ->
      meterBuffer (push_sample m f r) = (tail (meterBuffer r) ++ [m])%list /\
      frequencyBuffer (push_sample m f r) = (tail (frequencyBuffer r) ++ [f])%list).
Proof.
  split; [|split].
  - intros ticks w. apply run_ticks_pushes.
  - intros samples r. subst r.
    destruct (push_all_window samples) as [Hm Hf]. rewrite Hm, Hf.
    rewrite !length_drop, !length_fmap. unfold WAVE_POINTS.
    repeat split; lia.
  - intros m f r Hm Hf. unfold push_sample.
    rewrite length_app, Hm. unfold WAVE_POINTS. simpl.
    destruct (meterBuffer r) as [|x xs]; [discriminate|].
    destruct (frequencyBuffer r) as [|y ys]; [discriminate|].
    split; reflexivity.
Qed.

Lemma waveform_buffer_fifo_witness :
  meterBuffer (push_sample (of_Z 1) (of_Z 440) Samples.full_buffers) =
    (tail (meterBuffer Samples.full_buffers) ++ [of_Z 1])%list /\
  frequencyBuffer (push_sample (of_Z 1) (of_Z 440) Samples.full_buffers) =
    (tail (frequencyBuffer Samples.full_buffers) ++ [of_Z 440])%list.
Proof.
  apply (proj2 (proj2 waveform_buffer_fifo)); vm_compute; reflexivity.
Defined.

End Waveform.

(** * Reasoning about effectful code *)

Section Effectful.
Import Effects Platform Logic.

Lemma wp_ret {A} (a : A) Q E w : Q a w -> wp (ret a) Q E w.
Proof. exact (fun H => H). Qed.

Lemma wp_throw {A} (e : Thrown) (Q : A -> World -> Prop) E w :
  E e w -> wp (throw e) Q E w.
Proof. exact (fun H => H). Qed.

Lemma wp_modify (f : World -> World) Q E w : Q tt (f w) -> wp (modify f) Q E w.
Proof. exact (fun H => H). Qed.

Lemma wp_read {A} (f : World -> A) Q E w : Q (f w) w -> wp (read f) Q E w.
Proof. exact (fun H => H). Qed.

Lemma wp_bind {A B} (m : M A) (k : A -> M B) Q E w :
  wp m (fun a w' => wp (k a) Q E w') E w -> wp (bind m k) Q E w.
Proof. unfold wp, bind. destruct (m w) as [[a|e] w']; auto. Qed.

Lemma wp_try_catch {A} (m : M A) (h : Thrown -> M A) Q E w :
  wp m Q (fun e w' => wp (h e) Q E w') w -> wp (try_catch m h) Q E w.
Proof. unfold wp, try_catch. destruct (m w) as [[a|e] w']; auto. Qed.

Lemma wp_try_finally {A} (m : M A) (f : World -> World) Q E w :
  wp m (fun a w' => Q a (f w')) (fun e w' => E e (f w')) w ->
  wp (try_finally m f) Q E w.
Proof. unfold wp, try_finally. destruct (m w) as [[a|e] w']; auto. Qed.

Lemma wp_mono {A} (m : M A) (Q Q' : A -> World -> Prop) (E E' : Thrown -> World -> Prop) w :
  wp m Q E w ->
  (forall a w', Q a w' -> Q' a w') ->
  (forall e w', E e w' -> E' e w') ->
  wp m Q' E' w.
Proof. unfold wp. destruct (m w) as [[a|e] w']; auto. Qed.

(** Whatever [m] does, when both exits are acceptable everywhere. *)
Lemma wp_any {A} (m : M A) (Q : A -> World -> Prop) (E : Thrown -> World -> Prop) w :
  (forall a w', Q a w') -> (forall e w', E e w') -> wp m Q E w.
Proof. unfold wp. destruct (m w) as [[a|e] w']; auto. Qed.











Lemma bind_throws {A B} (m : M A) (k : A -> M B) w e w' :
  m w = (Throw e, w') -> bind m k w = (Throw e, w').
Proof. intros H. unfold bind. now rewrite H. Qed.

Lemma try_catch_returns {A} (m : M A) (h : Thrown -> M A) w a w' :
  m w = (Return a, w') -> try_catch m h w = (Return a, w').
Proof. intros H. unfold try_catch. now rewrite H. Qed.

Lemma try_catch_throws {A} (m : M A) (h : Thrown -> M A) w e w' :
  m w = (Throw e, w') -> try_catch m h w = h e w'.
Proof. intros H. unfold try_catch. now rewrite H. Qed.

End Effectful.

(** * The capture session *)

Section Capture.
Import Js Effects Platform Logic.

(** [safeStopAndUnload] never throws and only consumes capability
    calls. *)
Lemma safeStopAndUnload_ticks (rec : option Recording) (w : World) :
  exists n, AudioService.safeStopAndUnload rec w = (Return tt, set_tick n w) /\
            (tick w <= n)%nat.
Proof.
  destruct rec as [rec|]; simpl.
  - unfold try_catch, bind, call, ret.
    destruct (getStatusAsync rec (tick w)) as [[[] dur met]|e]; simpl.
    + destruct (stopAndUnloadAsync rec (S (tick w))) as [[]|e];
        eexists; split; try reflexivity; simpl; lia.
    + destruct (unloadAsync rec) as [unload|]; simpl.
      * destruct (unload (S (tick w))) as [[]|e];
          eexists; split; try reflexivity; simpl; lia.
      * eexists; split; try reflexivity; simpl; lia.
    + destruct (unloadAsync rec) as [unload|]; simpl.
      * destruct (unload (S (tick w))) as [[]|e'];
          eexists; split; try reflexivity; simpl; lia.
      * eexists; split; try reflexivity; simpl; lia.
  - exists (tick w). split; [|lia]. unfold ret. destruct w; reflexivity.
Qed.

#[local] Arguments AudioService.safeStopAndUnload : simpl never.






(** Neither revision of [cancelRecording] throws; both leave the
    handle cleared. *)
Lemma cancelRecording_clears (v : Controller.Revision) (w : World) :
  exists w', Controller.cancelRecording v w = (Return tt, w') /\ recording w' = None.
Proof.
  destruct (recording w) as [rec|] eqn:Hrec.
  - destruct v; simpl;
      unfold AudioService.cancelRecording, AudioService2.cancelRecording;
      unfold bind at 1; unfold read at 1; rewrite Hrec;
      unfold_m; exec safeStopAndUnload_ticks; eexists; split; reflexivity.
  - exists w. split; [|exact Hrec].
    destruct v; simpl;
      unfold AudioService.cancelRecording, AudioService2.cancelRecording;
      unfold bind at 1; unfold read at 1; rewrite Hrec; reflexivity.
Qed.

Lemma cancelRecording_idle (v : Controller.Revision) (w : World) :
  recording w = None -> Controller.cancelRecording v w = (Return tt, w).
Proof.
  intros Hrec.
  destruct v; simpl;
    unfold AudioService.cancelRecording, AudioService2.cancelRecording;
    unfold bind at 1; unfold read at 1; rewrite Hrec; reflexivity.
Qed.




End Capture.

(** * The interaction controller *)

Section Handlers.
Import Js Effects Platform Controller Logic.

Lemma wp_then_any {A B} (m : M A) (k : A -> M B)
    (Q : B -> World -> Prop) (E : Thrown -> World -> Prop) (w : World) :
  (forall a w', wp (k a) Q E w') -> (forall e w', E e w') -> wp (bind m k) Q E w.
Proof. intros Hk HE. apply wp_bind. apply wp_any; auto. Qed.

Lemma reset_to_idle_settles (w : World) :
  exists w', ScreenA.reset_to_idle w = (Return tt, w') /\ settled w'.
Proof. eexists. split; [reflexivity|]. repeat split. Qed.

Lemma wp_reset_to_idle (E : Thrown -> World -> Prop) (w : World) :
  wp ScreenA.reset_to_idle (fun _ w' => settled w') E w.
Proof.
  unfold wp. destruct (reset_to_idle_settles w) as (w' & -> & H). exact H.
Qed.

(** However the capture or the gateway fail, the cancel handler of the
    screen with the [Cancelled] phase returns with the controller at
    rest. *)
Lemma handleCancel_settles (v : Revision) (w : World) :
  exists w', ScreenA.handleCancel v w = (Return tt, w') /\ settled w'.
Proof.
  assert (H : wp (ScreenA.handleCancel v) (fun _ w' => settled w') (fun _ _ => False) w).
  { unfold ScreenA.handleCancel. apply wp_try_catch.
    apply wp_then_any; [|intros; apply wp_reset_to_idle]. intros _ w1.
    apply wp_then_any; [|intros; apply wp_reset_to_idle]. intros live w2.
    apply wp_then_any; [|intros; apply wp_reset_to_idle]. intros _ w3.
    apply wp_then_any; [|intros; apply wp_reset_to_idle]. intros _ w4.
    apply wp_reset_to_idle. }
  unfold wp in H.
  destruct (ScreenA.handleCancel v w) as [[[]|e] w']; [|contradiction].
  now exists w'.
Qed.

(** C4. Cancellation never raises and is idempotent. In either
    revision of the capture service, [cancelRecording] returns normally
    whatever the underlying calls do, leaves the recording handle
    cleared, and a second call changes nothing. The cancel handler of
    the controller returns normally from every state with the phase
    Idle and with the pending clarification prompt and the error
    message cleared. *)
Theorem cancel_never_raises (v : Revision) (w : World) :
  (exists w',
      cancelRecording v w = (Return tt, w') /\
      recording w' = None /\
      cancelRecording v w' = (Return tt, w')) /\
  (exists w',
      ScreenA.handleCancel v w = (Return tt, w') /\
      Home.state (home w') = Idle /\
      Home.clarifyPrompt (home w') = None /\
      Home.errorMessage (home w') = None).
Proof.
  split.
  - destruct (cancelRecording_clears v w) as (w' & Hrun & Hclear).
    exists w'. split; [exact Hrun|]. split; [exact Hclear|].
    now apply cancelRecording_idle.
  - destruct (handleCancel_settles v w) as (w' & Hrun & Hidle & Hprompt & Herr).
    now exists w'.
Qed.

(** *** Frames of the calls made by the stop handler *)
















(** Outside the premise of C8: on the live path the handler gets a bare
    transcript from [stopLiveRecognition], not a result of
    [processVoice]. The screen with the [Cancelled] phase asks for the
    cue before that call, under every scenario. *)
Remark handleStopA_live_cue :
  Home.scenario (home Samples.live_clarify) = VoiceApi.clarify /\
  Player.replays (audioManager (snd (ScreenA.handleStop rev1 Samples.live_clarify))) =
    [1%nat] /\
  Player.replays (audioManager (snd (ScreenB.handleStop rev1 Samples.live_clarify))) = [].
Proof. repeat split; vm_compute; reflexivity. Qed.

(** Outside the handler C4 is about: the cancel handler of the screen
    without the [Cancelled] phase returns to Idle but keeps a pending
    prompt. *)
Remark handleCancelB_keeps_prompt :
  let w' := snd (ScreenB.handleCancel rev1 Samples.prompted) in
  Home.state (home w') = Idle /\
  Home.clarifyPrompt (home w') = Some "What time should I set it for?".
Proof. split; vm_compute; reflexivity. Qed.

End Handlers.

(** * The native amplitude *)

Section Amplitude.
Import Js Visualizer.





End Amplitude.
